(** * A proof-of-work ledger node: [hadcoin_node_5001.py] and [blockchain.py]

    Shallow embedding of the [Blockchain] class and of the HTTP handlers
    of the two node programs, with the properties of the ledger engine
    stated over it. The earlier tutorial node kept under
    [Lab_3_Create a Cryptocurrency] has other methods and is embedded in a
    module of its own, [Lab3].

    Conventions.
    - A Python [str] is a [string]; every [ascii] is one code point below 256.
    - A Python [int] is a [Z]; the amount of a transaction is an [int].
    - A raised exception ([IndexError], [ValueError]) is [None] in [option].
    - A [while] loop takes a fuel argument and running out of fuel is
      [None]; the loops of [get_merkle_root] and [is_chain_valid] are given
      the length of their list, which is shown to be enough, and the
      unbounded loop of [proof_of_work] gets its fuel from the caller.
    - SHA-256, UTF-8 and [json.dumps] are computed, not assumed: the sample
      blocks at the end of the definitions carry digests produced by
      [hashlib], and the model reproduces them. *)

From Stdlib Require Import ZArith List String Ascii DecimalString Lia Bool.
From Stdlib Require Import DecimalZ DecimalPos.
From Stdlib Require Import Arith PeanoNat.
Import ListNotations.
Local Open Scope Z_scope.

(** ** [hashlib.sha256(s.encode()).hexdigest()] *)

Module SHA256.

Definition word := Z.

Definition wrap32 (x : Z) : word := Z.land x 0xffffffff.

Definition add32 (x y : word) : word := wrap32 (x + y).

Definition rotr (n : Z) (x : word) : word :=
  Z.lor (Z.shiftr x n) (wrap32 (Z.shiftl x (32 - n))).

Definition not32 (x : word) : word := Z.lxor x 0xffffffff.

Definition Ch (x y z : word) : word :=
  Z.lxor (Z.land x y) (Z.land (not32 x) z).

Definition Maj (x y z : word) : word :=
  Z.lxor (Z.lxor (Z.land x y) (Z.land x z)) (Z.land y z).

Definition bsig0 (x : word) : word :=
  Z.lxor (Z.lxor (rotr 2 x) (rotr 13 x)) (rotr 22 x).

Definition bsig1 (x : word) : word :=
  Z.lxor (Z.lxor (rotr 6 x) (rotr 11 x)) (rotr 25 x).

Definition ssig0 (x : word) : word :=
  Z.lxor (Z.lxor (rotr 7 x) (rotr 18 x)) (Z.shiftr x 3).

Definition ssig1 (x : word) : word :=
  Z.lxor (Z.lxor (rotr 17 x) (rotr 19 x)) (Z.shiftr x 10).

(** The constants are fractional parts of roots of the first primes: the
    first 32 bits after the point of the cube root of each of the first
    sixty-four primes, and of the square root of each of the first eight. *)
Definition first_primes : list Z :=
  [ 2; 3; 5; 7; 11; 13; 17; 19; 23; 29; 31; 37; 41; 43; 47; 53;
    59; 61; 67; 71; 73; 79; 83; 89; 97; 101; 103; 107; 109; 113; 127; 131;
    137; 139; 149; 151; 157; 163; 167; 173; 179; 181; 191; 193; 197; 199;
    211; 223; 227; 229; 233; 239; 241; 251; 257; 263; 269; 271; 277; 281;
    283; 293; 307; 311 ].

(** The integer cube root of [n] between [lo] and [hi], by bisection. *)
Fixpoint cube_root (fuel : nat) (lo hi n : Z) : Z :=
  match fuel with
  | O => lo
  | S fuel' =>
      if hi - lo <=? 1 then lo
      else
        let mid := (lo + hi) / 2 in
        if mid * mid * mid <=? n then cube_root fuel' mid hi n
        else cube_root fuel' lo mid n
  end.

Definition cube_root_fraction (p : Z) : word :=
  wrap32 (cube_root 64 0 (Z.shiftl 1 36) (Z.shiftl p 96)).

Definition square_root_fraction (p : Z) : word :=
  wrap32 (Z.sqrt (Z.shiftl p 64)).

Definition round_constants : list word :=
  Eval vm_compute in map cube_root_fraction first_primes.

Definition initial_state : list word :=
  Eval vm_compute in map square_root_fraction (firstn 8 first_primes).

(** [str.encode()]: UTF-8 of code points below 256. *)
Definition utf8_char (c : ascii) : list Z :=
  let cp := Z.of_N (N_of_ascii c) in
  if cp <? 128 then [cp]
  else [Z.lor 0xc0 (Z.shiftr cp 6); Z.lor 0x80 (Z.land cp 0x3f)].

Fixpoint encode (s : string) : list Z :=
  match s with
  | EmptyString => []
  | String c rest => utf8_char c ++ encode rest
  end.

(** Message padding: one [0x80], zeros up to 56 modulo 64, then the bit
    length on eight bytes, most significant first. *)
Definition be_bytes (n : nat) (x : Z) : list Z :=
  map (fun i => Z.land (Z.shiftr x (8 * Z.of_nat i)) 0xff) (rev (seq 0 n)).

Definition pad (msg : list Z) : list Z :=
  let len := Z.of_nat (List.length msg) in
  let zeros := Z.to_nat ((55 - len) mod 64) in
  msg ++ [0x80] ++ repeat 0 zeros ++ be_bytes 8 (8 * len).

Fixpoint be_words (fuel : nat) (bs : list Z) : list word :=
  match fuel, bs with
  | S fuel', b0 :: b1 :: b2 :: b3 :: rest =>
      (Z.lor (Z.shiftl b0 24)
         (Z.lor (Z.shiftl b1 16) (Z.lor (Z.shiftl b2 8) b3)))
      :: be_words fuel' rest
  | _, _ => []
  end.

(** The sixteen-word window of the message schedule, advanced by one. *)
Definition next_window (w : list word) : list word :=
  match w with
  | w0 :: tl =>
      let w1 := nth 0 tl 0 in
      let w9 := nth 8 tl 0 in
      let w14 := nth 13 tl 0 in
      tl ++ [add32 (add32 (ssig1 w14) w9) (add32 (ssig0 w1) w0)]
  | [] => []
  end.

Definition round (st : list word) (k w : word) : list word :=
  match st with
  | [a; b; c; d; e; f; g; h] =>
      let t1 := add32 (add32 (add32 h (bsig1 e)) (add32 (Ch e f g) k)) w in
      let t2 := add32 (bsig0 a) (Maj a b c) in
      [add32 t1 t2; a; b; c; add32 d t1; e; f; g]
  | _ => st
  end.

Fixpoint rounds (ks : list word) (w : list word) (st : list word)
  : list word :=
  match ks with
  | [] => st
  | k :: ks' => rounds ks' (next_window w) (round st k (hd 0 w))
  end.

Definition compress (st : list word) (block : list word) : list word :=
  map (fun p => add32 (fst p) (snd p))
      (combine st (rounds round_constants block st)).

Fixpoint blocks (fuel : nat) (ws : list word) (st : list word)
  : list word :=
  match fuel with
  | O => st
  | S fuel' =>
      match ws with
      | [] => st
      | _ => blocks fuel' (skipn 16 ws) (compress st (firstn 16 ws))
      end
  end.

Definition digest (msg : list Z) : list word :=
  let bs := pad msg in
  let ws := be_words (List.length bs) bs in
  blocks (List.length ws) ws initial_state.

Definition hex_digit (x : Z) : ascii :=
  if x <? 10 then ascii_of_N (Z.to_N (48 + x))
  else ascii_of_N (Z.to_N (87 + x)).

Definition hex_word (x : word) : string :=
  fold_right
    (fun i acc => String (hex_digit (Z.land (Z.shiftr x (4 * Z.of_nat i)) 0xf)) acc)
    EmptyString (rev (seq 0 8)).

Definition hexdigest (ws : list word) : string :=
  fold_right (fun w acc => (hex_word w ++ acc)%string) EmptyString ws.

Definition sha256 (s : string) : string := hexdigest (digest (encode s)).

End SHA256.

Definition sha256 := SHA256.sha256.


(** ** Python values *)

Local Open Scope string_scope.

(** [str(n)] for an [int]. *)
Definition str (n : Z) : string := NilZero.string_of_int (Z.to_int n).

(** [s[:3]]. *)
Definition prefix3 (s : string) : string := substring 0 3 s.

(** A transaction is the dict [{'sender': .., 'receiver': .., 'amount': ..}];
    dict equality is equality of the three values. *)
Record Transaction : Type := mkTransaction
  { sender : string; receiver : string; amount : Z }.

Definition tx_eqb (a b : Transaction) : bool :=
  String.eqb (sender a) (sender b)
  && String.eqb (receiver a) (receiver b)
  && Z.eqb (amount a) (amount b).

(** ** [json.dumps(.., sort_keys=True)] *)

Module Json.

Definition quote : string := String (ascii_of_nat 34) EmptyString.
Definition backslash : string := String (ascii_of_nat 92) EmptyString.

Definition hex4 (n : Z) : string :=
  String (SHA256.hex_digit (Z.land (Z.shiftr n 12) 0xf))
    (String (SHA256.hex_digit (Z.land (Z.shiftr n 8) 0xf))
       (String (SHA256.hex_digit (Z.land (Z.shiftr n 4) 0xf))
          (String (SHA256.hex_digit (Z.land n 0xf)) EmptyString))).

(** One character of a string under [ensure_ascii]: the quote and the
    backslash are escaped, printable ASCII is kept, the five short
    escapes are used, and everything else is written as a [u] escape. *)
Definition escape_char (c : ascii) : string :=
  let n := Z.of_N (N_of_ascii c) in
  if (n =? 34)%Z then backslash ++ quote
  else if (n =? 92)%Z then backslash ++ backslash
  else if ((32 <=? n) && (n <=? 126))%Z then String c EmptyString
  else if (n =? 8)%Z then backslash ++ "b"
  else if (n =? 12)%Z then backslash ++ "f"
  else if (n =? 10)%Z then backslash ++ "n"
  else if (n =? 13)%Z then backslash ++ "r"
  else if (n =? 9)%Z then backslash ++ "t"
  else backslash ++ "u" ++ hex4 n.

Fixpoint escape (s : string) : string :=
  match s with
  | EmptyString => EmptyString
  | String c rest => escape_char c ++ escape rest
  end.

Definition dumps_str (s : string) : string := quote ++ escape s ++ quote.

Definition dumps_key (k : string) (v : string) : string :=
  quote ++ k ++ quote ++ ": " ++ v.

(** A transaction, keys in sorted order. *)
Definition dumps_tx (tx : Transaction) : string :=
  "{" ++ dumps_key "amount" (str (amount tx)) ++ ", "
      ++ dumps_key "receiver" (dumps_str (receiver tx)) ++ ", "
      ++ dumps_key "sender" (dumps_str (sender tx)) ++ "}".

Fixpoint join (sep : string) (items : list string) : string :=
  match items with
  | [] => EmptyString
  | [x] => x
  | x :: rest => x ++ sep ++ join sep rest
  end.

(** A list of transactions. *)
Definition dumps (txs : list Transaction) : string :=
  "[" ++ join ", " (map dumps_tx txs) ++ "]".

End Json.

(** ** Blocks and node state *)

Record Block : Type := mkBlock
  { index : Z;
    timestamp : string;
    proof : Z;
    previous_hash : string;
    merkle_root : string;
    transactions : list Transaction;
    block_hash : string }.

(** The attributes [self.chain], [self.transactions] and [self.nodes].
    The peer set is kept as the list of its members in iteration order.
    [blockchain.py] has no peer set: its states leave [self_nodes] alone. *)
Record Blockchain : Type := mkBlockchain
  { self_chain : list Block;
    self_transactions : list Transaction;
    self_nodes : list string }.

Definition set_chain (c : list Block) (st : Blockchain) : Blockchain :=
  mkBlockchain c (self_transactions st) (self_nodes st).

Definition set_transactions (m : list Transaction) (st : Blockchain)
  : Blockchain :=
  mkBlockchain (self_chain st) m (self_nodes st).

(** [Blockchain.__init__] *)
Definition init : Blockchain := mkBlockchain [] [] [].

(** ** Methods shared verbatim by the two programs *)

(** *** [get_merkle_root] *)

(** [range(0, n, 2)] *)
Definition range_step2 (n : nat) : list nat :=
  map (fun k => (2 * k)%nat) (seq 0 (Nat.div2 (n + 1))).

(** [l[-1]]; [None] is [IndexError]. *)
Definition last_item {A : Type} (l : list A) : option A :=
  match l with
  | [] => None
  | _ => nth_error l (List.length l - 1)
  end.

(** The [for i in range(0, len(temp_transactions), 2)] loop. *)
Fixpoint hash_level (temp_transactions : list string) (indices : list nat)
  : option (list string) :=
  match indices with
  | [] => Some []
  | i :: indices' =>
      match nth_error temp_transactions i,
            nth_error temp_transactions (i + 1) with
      | Some lhs, Some rhs =>
          let hash_val := sha256 (lhs ++ rhs) in
          match hash_level temp_transactions indices' with
          | Some new_level => Some (hash_val :: new_level)
          | None => None
          end
      | _, _ => None
      end
  end.

(** The [if len(temp_transactions) % 2 != 0] statement. *)
Definition append_last_if_odd (temp_transactions : list string)
  : option (list string) :=
  if Nat.odd (List.length temp_transactions) then
    match last_item temp_transactions with
    | Some x => Some (temp_transactions ++ [x])%list
    | None => None
    end
  else Some temp_transactions.

(** The [while len(temp_transactions) > 1] loop and the final
    [temp_transactions[0]]. *)
Fixpoint merkle_loop (fuel : nat) (temp_transactions : list string)
  : option string :=
  if (1 <? List.length temp_transactions)%nat then
    match fuel with
    | O => None
    | S fuel' =>
        match append_last_if_odd temp_transactions with
        | Some padded =>
            match hash_level padded (range_step2 (List.length padded)) with
            | Some new_level => merkle_loop fuel' new_level
            | None => None
            end
        | None => None
        end
    end
  else nth_error temp_transactions 0.

Definition get_merkle_root (txs : list Transaction) : option string :=
  match txs with
  | [] => Some "0"
  | _ => merkle_loop (List.length txs) (map Json.dumps_tx txs)
  end.

(** *** [proof_of_work] and [compute_block_hash] *)

(** The string that is hashed for a block: nonce, index, timestamp,
    previous hash, Merkle root and the serialized transactions. *)
Definition hash_input (nonce block_index : Z)
    (ts prev root tx_data : string) : string :=
  str nonce ++ str block_index ++ ts ++ prev ++ root ++ tx_data.

(** The [while check_proof is False] loop, from [new_proof]. *)
Fixpoint pow_loop (fuel : nat) (block_index : Z)
    (ts prev root tx_data : string) (new_proof : Z) : option Z :=
  match fuel with
  | O => None
  | S fuel' =>
      let hash_operation :=
        sha256 (hash_input new_proof block_index ts prev root tx_data) in
      if String.eqb (prefix3 hash_operation) "000" then Some new_proof
      else pow_loop fuel' block_index ts prev root tx_data (new_proof + 1)
  end.

Definition proof_of_work (fuel : nat) (block_index : Z)
    (ts prev root : string) (txs : list Transaction) : option Z :=
  let tx_data := Json.dumps txs in
  pow_loop fuel block_index ts prev root tx_data 0.

Definition compute_block_hash (block : Block) : string :=
  let tx_data := Json.dumps (transactions block) in
  sha256 (hash_input (proof block) (index block) (timestamp block)
            (previous_hash block) (merkle_root block) tx_data).

(** *** [is_chain_valid] *)

(** The checks made on a block once its link was checked; the result is
    [Some false] for [return False], [Some true] to go on. *)
Definition check_commitments (block : Block) : option bool :=
  match get_merkle_root (transactions block) with
  | None => None
  | Some root =>
      if negb (String.eqb root (merkle_root block)) then Some false
      else
        let computed_hash := compute_block_hash block in
        if negb (String.eqb (prefix3 computed_hash) "000") then Some false
        else if negb (String.eqb (block_hash block) computed_hash)
             then Some false
             else Some true
  end.

(** The [while block_index < len(chain)] loop. *)
Fixpoint valid_loop (fuel : nat) (chain : list Block)
    (previous_block : Block) (block_index : nat) : option bool :=
  if (block_index <? List.length chain)%nat then
    match fuel with
    | O => None
    | S fuel' =>
        match nth_error chain block_index with
        | None => None
        | Some block =>
            if negb (String.eqb (previous_hash block)
                       (block_hash previous_block))
            then Some false
            else
              match check_commitments block with
              | Some true =>
                  valid_loop fuel' chain block (block_index + 1)
              | other => other
              end
        end
    end
  else Some true.

Definition is_chain_valid (chain : list Block) : option bool :=
  match chain with
  | [] => Some true
  | first_block :: _ =>
      if negb (String.eqb (previous_hash first_block) "0") then Some false
      else
        match check_commitments first_block with
        | Some true => valid_loop (List.length chain) chain first_block 1
        | other => other
        end
  end.

(** *** [get_previous_block] and [add_transaction] / [create_transaction] *)

(** [None] is Python's [None]; [self.chain[-1]] is only evaluated on a
    non-empty chain. *)
Definition get_previous_block (st : Blockchain) : option Block :=
  match self_chain st with
  | [] => None
  | b :: rest => Some (last rest b)
  end.

(** Returns the announced block number and the new state. *)
Definition add_transaction (s r : string) (a : Z) (st : Blockchain)
  : Z * Blockchain :=
  let st' :=
    set_transactions (self_transactions st ++ [mkTransaction s r a])%list st in
  match get_previous_block st' with
  | None => (1, st')
  | Some previous_block => (index previous_block + 1, st')
  end.

Definition create_transaction := add_transaction.

(** ** Python list operations on the mempool *)

(** [tx in pending] *)
Definition list_contains (tx : Transaction) (pending : list Transaction)
  : bool :=
  existsb (fun y => tx_eqb y tx) pending.

(** [pending.remove(tx)]: drops the first element equal to [tx];
    [None] is [ValueError]. *)
Fixpoint list_remove (tx : Transaction) (pending : list Transaction)
  : option (list Transaction) :=
  match pending with
  | [] => None
  | y :: rest =>
      if tx_eqb y tx then Some rest
      else match list_remove tx rest with
           | Some rest' => Some (y :: rest')
           | None => None
           end
  end.

(** The block dict built by [create_block]. *)
Definition new_block (chain : list Block) (nonce : Z) (prev root : string)
    (txs : list Transaction) (ts hash : string) : Block :=
  mkBlock (Z.of_nat (List.length chain) + 1) ts nonce prev root txs hash.

(** What a [/mine_block] handler answers. *)
Inductive reply : Type :=
| Reply400
| Reply200 (block : Block).

(** ** [hadcoin_node_5001.py] *)

Module Node5001.

(** The [for tx in transactions] loop of [create_block]. *)
Fixpoint discard_mined (txs pending : list Transaction)
  : option (list Transaction) :=
  match txs with
  | [] => Some pending
  | tx :: txs' =>
      if list_contains tx pending then
        match list_remove tx pending with
        | Some pending' => discard_mined txs' pending'
        | None => None
        end
      else discard_mined txs' pending
  end.

(** [txs] is a list of its own, as at the one call site, where it is the
    slice [blockchain.transactions[:5]]. *)
Definition create_block (nonce : Z) (prev root : string)
    (txs : list Transaction) (ts hash : string) (st : Blockchain)
  : option (Block * Blockchain) :=
  let block := new_block (self_chain st) nonce prev root txs ts hash in
  match discard_mined txs (self_transactions st) with
  | Some pending =>
      Some (block,
            mkBlockchain (self_chain st ++ [block])%list pending
              (self_nodes st))
  | None => None
  end.

(** The [/mine_block] handler. [now] is [str(datetime.datetime.now())],
    [node_address] the node's identifier; the broadcast to the peers
    does not touch the state and is left out. *)
Definition mine_block (fuel : nat) (now node_address : string)
    (st : Blockchain) : option (reply * Blockchain) :=
  if (List.length (self_transactions st) <? 1)%nat then Some (Reply400, st)
  else
    let transactions_to_mine := firstn 5 (self_transactions st) in
    let st1 := snd (add_transaction "NETWORK" node_address 1 st) in
    let prev :=
      match get_previous_block st1 with
      | None => "0"
      | Some previous_block => block_hash previous_block
      end in
    match get_merkle_root transactions_to_mine with
    | None => None
    | Some root =>
        let block_index := Z.of_nat (List.length (self_chain st1)) + 1 in
        match proof_of_work fuel block_index now prev root
                transactions_to_mine with
        | None => None
        | Some nonce =>
            let tx_data := Json.dumps transactions_to_mine in
            let hash :=
              sha256 (hash_input nonce block_index now prev root tx_data) in
            match create_block nonce prev root transactions_to_mine now
                    hash st1 with
            | Some (block, st2) => Some (Reply200 block, st2)
            | None => None
            end
        end
    end.

(** [add_node], given the [netloc] that [urlparse] finds in the address. *)
Definition add_node (netloc : string) (st : Blockchain) : Blockchain :=
  if existsb (String.eqb netloc) (self_nodes st) then st
  else mkBlockchain (self_chain st) (self_transactions st)
         (self_nodes st ++ [netloc])%list.

(** What [requests.get] gives for one peer: the connection fails, the
    status is not 200, or the body carries ['length'] and ['chain']. *)
Inductive peer_reply : Type :=
| ConnectionError
| NotOk
| Ok200 (length : Z) (chain : list Block).

(** One turn of the [for node in network] loop on the pair
    [(longest_chain, max_length)]. *)
Definition scan_step (acc : option (list Block) * Z) (r : peer_reply)
  : option (option (list Block) * Z) :=
  match r with
  | Ok200 length chain =>
      if (length >? snd acc)%Z then
        match is_chain_valid chain with
        | Some true => Some (Some chain, length)
        | Some false => Some acc
        | None => None
        end
      else Some acc
  | _ => Some acc
  end.

Fixpoint scan (fetch : string -> peer_reply) (network : list string)
    (acc : option (list Block) * Z) : option (option (list Block) * Z) :=
  match network with
  | [] => Some acc
  | node :: network' =>
      match scan_step acc (fetch node) with
      | Some acc' => scan fetch network' acc'
      | None => None
      end
  end.

(** [if longest_chain:] is taken for a list that is not empty: [None] and
    [[]] are both false. *)
Definition truthy (longest_chain : option (list Block)) : bool :=
  match longest_chain with
  | Some (_ :: _) => true
  | _ => false
  end.

Definition replace_chain (fetch : string -> peer_reply) (st : Blockchain)
  : option (bool * Blockchain) :=
  let max_length := Z.of_nat (List.length (self_chain st)) in
  match scan fetch (self_nodes st) (None, max_length) with
  | Some (longest_chain, _) =>
      match longest_chain with
      | Some c =>
          if truthy longest_chain then Some (true, set_chain c st)
          else Some (false, st)
      | None => Some (false, st)
      end
  | None => None
  end.

End Node5001.

(** ** [blockchain.py] *)

Module BlockchainPy.

Definition create_block (nonce : Z) (prev root : string)
    (txs : list Transaction) (ts hash : string) (st : Blockchain)
  : Block * Blockchain :=
  let block := new_block (self_chain st) nonce prev root txs ts hash in
  (block, set_chain (self_chain st ++ [block])%list st).

Definition mine_block (fuel : nat) (now : string) (st : Blockchain)
  : option (reply * Blockchain) :=
  if (List.length (self_transactions st) <? 5)%nat then Some (Reply400, st)
  else
    let transactions_to_mine := firstn 5 (self_transactions st) in
    let st1 := set_transactions (skipn 5 (self_transactions st)) st in
    let prev :=
      match get_previous_block st1 with
      | None => "0"
      | Some previous_block => block_hash previous_block
      end in
    match get_merkle_root transactions_to_mine with
    | None => None
    | Some root =>
        let block_index := Z.of_nat (List.length (self_chain st1)) + 1 in
        match proof_of_work fuel block_index now prev root
                transactions_to_mine with
        | None => None
        | Some nonce =>
            let tx_data := Json.dumps transactions_to_mine in
            let hash :=
              sha256 (hash_input nonce block_index now prev root tx_data) in
            let '(block, st2) :=
              create_block nonce prev root transactions_to_mine now hash
                st1 in
            Some (Reply200 block, st2)
        end
    end.

End BlockchainPy.

(** ** The Merkle commitment in the words of its description *)

Module MerkleSpec.

(** Digests of the concatenation of each adjacent pair. *)
Fixpoint pair_up (level : list string) : list string :=
  match level with
  | a :: b :: rest => sha256 (a ++ b) :: pair_up rest
  | _ => []
  end.

(** The last value once more when the count is odd. *)
Definition make_even (level : list string) : list string :=
  if Nat.odd (List.length level)
  then (level ++ [last level EmptyString])%list
  else level.

Definition next_level (level : list string) : list string :=
  pair_up (make_even level).

(** [reduces level root]: repeating [next_level] while more than one value
    remains ends with the single value [root]. *)
Inductive reduces : list string -> string -> Prop :=
| reduces_done : forall v, reduces [v] v
| reduces_more : forall level root,
    (1 < List.length level)%nat ->
    reduces (next_level level) root ->
    reduces level root.

(** The leaves are the serialized transactions themselves. *)
Definition leaves (txs : list Transaction) : list string :=
  map Json.dumps_tx txs.

Definition commits (txs : list Transaction) (root : string) : Prop :=
  match txs with
  | [] => root = "0"
  | _ => reduces (leaves txs) root
  end.

End MerkleSpec.

(** ** Proof of work and validity in the words of their descriptions *)

(** The digest of the block fields with nonce [n] begins with three
    zero digits. *)
Definition meets_difficulty (block_index : Z) (ts prev root : string)
    (txs : list Transaction) (n : Z) : Prop :=
  prefix3 (sha256 (hash_input n block_index ts prev root (Json.dumps txs)))
  = "000".

(** What is asked of every block of a valid chain. *)
Definition block_ok (b : Block) : Prop :=
  get_merkle_root (transactions b) = Some (merkle_root b)
  /\ prefix3 (compute_block_hash b) = "000"
  /\ compute_block_hash b = block_hash b.

(** What is asked of a non-empty valid chain. *)
Definition chain_conditions (chain : list Block) : Prop :=
  (forall b, nth_error chain 0 = Some b -> previous_hash b = "0")
  /\ (forall i b, nth_error chain i = Some b -> block_ok b)
  /\ (forall i p b,
        nth_error chain i = Some p ->
        nth_error chain (S i) = Some b ->
        previous_hash b = block_hash p).

(** The loop of [is_chain_valid] read on the blocks that remain. *)
Fixpoint links (previous_block : Block) (rest : list Block) : option bool :=
  match rest with
  | [] => Some true
  | block :: rest' =>
      if negb (String.eqb (previous_hash block) (block_hash previous_block))
      then Some false
      else
        match check_commitments block with
        | Some true => links block rest'
        | other => other
        end
  end.

(** ** The mining pipeline *)

(** [previous_hash] as both handlers choose it. *)
Definition link_of (st : Blockchain) : string :=
  match get_previous_block st with
  | None => "0"
  | Some previous_block => block_hash previous_block
  end.

(** States built from an empty chain by mining turns only: a batch is
    committed, linked to the last block, numbered [len(chain) + 1], given
    a nonce by [proof_of_work], hashed, and appended by [create_block] (of
    either program). Changes of the pending transactions are free. *)
Inductive pipeline : Blockchain -> Prop :=
| pipeline_init : forall pending nodes,
    pipeline (mkBlockchain [] pending nodes)
| pipeline_pending : forall st pending,
    pipeline st -> pipeline (set_transactions pending st)
| pipeline_turn : forall st fuel now batch root nonce block st',
    pipeline st ->
    get_merkle_root batch = Some root ->
    proof_of_work fuel (Z.of_nat (List.length (self_chain st)) + 1) now
      (link_of st) root batch = Some nonce ->
    Node5001.create_block nonce (link_of st) root batch now
      (sha256 (hash_input nonce (Z.of_nat (List.length (self_chain st)) + 1)
                 now (link_of st) root (Json.dumps batch))) st
    = Some (block, st') ->
    pipeline st'
| pipeline_turn_py : forall st fuel now batch root nonce block st',
    pipeline st ->
    get_merkle_root batch = Some root ->
    proof_of_work fuel (Z.of_nat (List.length (self_chain st)) + 1) now
      (link_of st) root batch = Some nonce ->
    BlockchainPy.create_block nonce (link_of st) root batch now
      (sha256 (hash_input nonce (Z.of_nat (List.length (self_chain st)) + 1)
                 now (link_of st) root (Json.dumps batch))) st
    = (block, st') ->
    pipeline st'.

(** Every block carries its 1-based position as [index]. *)
Fixpoint indexed_from (i : Z) (chain : list Block) : bool :=
  match chain with
  | [] => true
  | b :: rest => (index b =? i)%Z && indexed_from (i + 1) rest
  end.

Definition well_indexed (chain : list Block) : Prop :=
  indexed_from 1 chain = true.

(** ** The mempool after a block, in the words of its description *)

(** [pending] without its first element equal to [tx], if there is one. *)
Fixpoint remove_first (tx : Transaction) (pending : list Transaction)
  : list Transaction :=
  match pending with
  | [] => []
  | y :: rest =>
      if tx_eqb y tx then rest else y :: remove_first tx rest
  end.

(** One removal for each transaction of the batch, in batch order. *)
Definition remove_batch (txs pending : list Transaction)
  : list Transaction :=
  fold_left (fun m tx => remove_first tx m) txs pending.

Fixpoint occurrences (tx : Transaction) (l : list Transaction) : nat :=
  match l with
  | [] => 0
  | y :: rest => (if tx_eqb y tx then 1 else 0) + occurrences tx rest
  end.

(** [kept] is [l] with some elements left out, the order unchanged. *)
Inductive subsequence {A : Type} : list A -> list A -> Prop :=
| subsequence_nil : subsequence [] []
| subsequence_skip : forall x kept l,
    subsequence kept l -> subsequence kept (x :: l)
| subsequence_keep : forall x kept l,
    subsequence kept l -> subsequence (x :: kept) (x :: l).

(** ** Consensus in the words of its description *)

Module ResolveSpec.

Import Node5001.

Definition accepts_chain (chain : list Block) : bool :=
  match is_chain_valid chain with
  | Some true => true
  | _ => false
  end.

(** A reply is taken as the running winner when it arrived, reports a
    length strictly above the running maximum, and carries a chain that
    the validator accepts. *)
Definition takes (max_length : Z) (r : peer_reply) : bool :=
  match r with
  | Ok200 length chain => (length >? max_length)%Z && accepts_chain chain
  | _ => false
  end.

Definition reported (r : peer_reply) : Z * list Block :=
  match r with
  | Ok200 length chain => (length, chain)
  | _ => (0, [])
  end.

(** The running winner as described: it starts as the local chain. *)
Fixpoint winner_from (replies : list peer_reply) (winner : list Block)
    (max_length : Z) : list Block :=
  match replies with
  | [] => winner
  | r :: rest =>
      if takes max_length r
      then winner_from rest (snd (reported r)) (fst (reported r))
      else winner_from rest winner max_length
  end.

Definition winner (fetch : string -> peer_reply) (st : Blockchain)
  : list Block :=
  winner_from (map fetch (self_nodes st)) (self_chain st)
    (Z.of_nat (List.length (self_chain st))).

(** The outcome as described: replaced and [True] when the winner differs
    from the local chain, untouched and [False] otherwise. *)
Definition described (fetch : string -> peer_reply) (st : Blockchain)
    (out : option (bool * Blockchain)) : Prop :=
  (winner fetch st <> self_chain st ->
   out = Some (true, set_chain (winner fetch st) st))
  /\ (winner fetch st = self_chain st -> out = Some (false, st)).

(** The running pair of the program: no winner yet is [None]. *)
Fixpoint running (replies : list peer_reply)
    (acc : option (list Block) * Z) : option (list Block) * Z :=
  match replies with
  | [] => acc
  | r :: rest =>
      if takes (snd acc) r
      then running rest (Some (snd (reported r)), fst (reported r))
      else running rest acc
  end.

(** Reply [i] is the first among the replies with an accepted chain to
    report the greatest length, and that length is above [bound]. *)
Definition first_longest (replies : list peer_reply) (bound : Z) (i : nat)
    (len : Z) (chain : list Block) : Prop :=
  nth_error replies i = Some (Ok200 len chain)
  /\ accepts_chain chain = true
  /\ (bound < len)%Z
  /\ (forall j l c, nth_error replies j = Some (Ok200 l c) ->
        accepts_chain c = true ->
        ((j < i)%nat -> (l < len)%Z) /\ (l <= len)%Z).

(** No reply with an accepted chain reports more than [bound]. *)
Definition none_longer (replies : list peer_reply) (bound : Z) : Prop :=
  forall j l c, nth_error replies j = Some (Ok200 l c) ->
    accepts_chain c = true -> (l <= bound)%Z.

End ResolveSpec.

(** ** Sample runs *)

Module Sample.

Definition peer : string := "10.0.0.2:5002".

(** The five transactions that both programs put in the mempool at start. *)
Definition five : list Transaction :=
  [ mkTransaction "Alice" "Bob" 50;
    mkTransaction "Bob" "Charlie" 30;
    mkTransaction "Charlie" "Diana" 20;
    mkTransaction "Diana" "Eve" 45;
    mkTransaction "Eve" "Alice" 60 ].

(** The state of either program once loaded. *)
Definition preloaded : Blockchain := mkBlockchain [] five [].

(** The first block, mined at [now1], where nonce 0 meets the difficulty. *)
Definition now1 : string := "2026-11-04 09:43:12.001365".

Definition block1 : Block :=
  mkBlock 1 now1 0 "0"
    "d7583f0e7783686c016c71927e74337eab89d5e260c7c07581ff273f467854c4"
    five
    "000fa691b3822c01a23833d60b8f5404eccaeffaabc7ac50d2a075b8dc77515c".

Definition reward : Transaction := mkTransaction "NETWORK" "node5001" 1.

(** [hadcoin_node_5001.py] after the first block. *)
Definition node1 : Blockchain := mkBlockchain [block1] [reward] [].

(** [blockchain.py] after the first block. *)
Definition single1 : Blockchain := mkBlockchain [block1] [] [].

(** The second block of [hadcoin_node_5001.py], mined at [now2]. *)
Definition now2 : string := "2026-11-04 09:44:30.003468".

Definition block2 : Block :=
  mkBlock 2 now2 0 (block_hash block1) (Json.dumps_tx reward) [reward]
    "000b93d31ff9a28f5925fedf33c1eb9fe06ee2801dfd1447644203bdd8b6c2d4".

Definition node2 : Blockchain := mkBlockchain [block1; block2] [reward] [].

(** The node after its first block, with one peer registered. *)
Definition node1_peered : Blockchain :=
  mkBlockchain [block1] [reward] [peer].

(** A loaded node with one peer registered and no block yet. *)
Definition fresh : Blockchain := mkBlockchain [] five [peer].

(** A block that a peer numbers 7, with a nonce found for that number. *)
Definition mallory : Transaction := mkTransaction "Mallory" "Mallory" 1.

Definition now7 : string := "2026-11-04 10:00:00.000000".

Definition block7 : Block :=
  mkBlock 7 now7 4638 "0" (Json.dumps_tx mallory) [mallory]
    "0000baf284c2a6c82b94942cf5750f54453ea923992fe0bf4c916f32f321e57d".

(** A peer that sends the one-block chain [block7]. *)
Definition peer7 (node : string) : Node5001.peer_reply :=
  Node5001.Ok200 1 [block7].

(** [fresh] once that chain is installed. *)
Definition node7 : Blockchain := mkBlockchain [block7] five [peer].

(** A peer that reports length 2 and sends no block. *)
Definition peer_empty (node : string) : Node5001.peer_reply :=
  Node5001.Ok200 2 [].

(** A peer that reports length 2 and sends the one-block chain [block1]. *)
Definition peer_same (node : string) : Node5001.peer_reply :=
  Node5001.Ok200 2 [block1].

End Sample.

(** ** One field of one block changed *)




(** ** Reading a serialized string back *)

Module JsonRead.





End JsonRead.

(** ** The HTTP handlers of [hadcoin_node_5001.py] *)

Module Api5001.

(** What [request.get_json()] gives to a handler that reads a transaction:
    [None] when there is no object, and otherwise, for each of the three
    keys, its value when the key is there. *)
Record tx_fields : Type := mkFields
  { field_sender : option string;
    field_receiver : option string;
    field_amount : option Z }.

(** The test [not json_data or not all(field in json_data ...)] passed:
    the three values. *)
Definition required (json_data : option tx_fields) : option Transaction :=
  match json_data with
  | Some (mkFields (Some s) (Some r) (Some a)) => Some (mkTransaction s r a)
  | _ => None
  end.

(** [node.split(':')[0]] *)
Fixpoint host_of (node : string) : string :=
  match node with
  | EmptyString => EmptyString
  | String c rest =>
      if Ascii.eqb c ":" then EmptyString else String c (host_of rest)
  end.

(** [{node.split(':')[0] for node in blockchain.nodes}] *)
Definition peer_ips (st : Blockchain) : list string :=
  map host_of (self_nodes st).

(** [request.remote_addr in peer_ips] *)
Definition from_peer (remote_addr : string) (st : Blockchain) : bool :=
  existsb (String.eqb remote_addr) (peer_ips st).

(** The answers of the two handlers that take a transaction: the status,
    and with 201 the announced block number and, for [/add_transaction],
    the count of pending transactions. *)
Inductive tx_answer : Type :=
| Tx400
| Tx403
| Tx201 (block_number : Z) (pending : option nat).

(** [POST /receive_transaction]; nothing is posted. *)
Definition receive_transaction (remote_addr : string)
    (json_data : option tx_fields) (st : Blockchain)
  : tx_answer * Blockchain :=
  if negb (from_peer remote_addr st) then (Tx403, st)
  else
    match required json_data with
    | None => (Tx400, st)
    | Some tx =>
        let '(number, st') :=
          add_transaction (sender tx) (receiver tx) (amount tx) st in
        (Tx201 number None, st')
    end.

(** [GET /pending_transactions]: the list and its count. *)
Definition pending_transactions (st : Blockchain)
  : list Transaction * nat :=
  (self_transactions st, List.length (self_transactions st)).

(** [GET /mine_block] with the requests it posts to [/sync_mempool] of the
    peers: one for each node, each with the mined transactions. *)
Definition mine_block (fuel : nat) (now node_address : string)
    (st : Blockchain)
  : option (reply * Blockchain * list (string * list Transaction)) :=
  match Node5001.mine_block fuel now node_address st with
  | Some (Reply200 block, st') =>
      Some (Reply200 block, st',
            map (fun node => (node, transactions block)) (self_nodes st'))
  | Some (Reply400, st') => Some (Reply400, st', [])
  | None => None
  end.

Inductive sync_answer : Type :=
| Sync403
| Sync200 (removed pending : nat).

(** The [for tx in mined_transactions] loop of [/sync_mempool], with its
    counter. *)
Fixpoint sync_loop (mined pending : list Transaction) (removed : nat)
  : option (list Transaction * nat) :=
  match mined with
  | [] => Some (pending, removed)
  | tx :: mined' =>
      if list_contains tx pending then
        match list_remove tx pending with
        | Some pending' => sync_loop mined' pending' (removed + 1)
        | None => None
        end
      else sync_loop mined' pending removed
  end.

(** [POST /sync_mempool]. [json_data] is [None] when [request.get_json()]
    gives no object, on which [.get] raises; the inner [None] is a missing
    ['mined_transactions'] key, read as the empty list. *)
Definition sync_mempool (remote_addr : string)
    (json_data : option (option (list Transaction))) (st : Blockchain)
  : option (sync_answer * Blockchain) :=
  if negb (from_peer remote_addr st) then Some (Sync403, st)
  else
    match json_data with
    | None => None
    | Some key =>
        let mined_transactions :=
          match key with Some l => l | None => [] end in
        match sync_loop mined_transactions (self_transactions st) 0 with
        | Some (pending, removed) =>
            Some (Sync200 removed (List.length pending),
                  set_transactions pending st)
        | None => None
        end
    end.

(** [GET /get_chain], as the reply that a peer reads in [replace_chain]. *)
Definition get_chain (st : Blockchain) : Node5001.peer_reply :=
  Node5001.Ok200 (Z.of_nat (List.length (self_chain st))) (self_chain st).

(** [GET /is_valid]: whether the message is the good one. [None] is an
    exception. *)
Definition is_valid (st : Blockchain) : option bool :=
  is_chain_valid (self_chain st).

Inductive connect_answer : Type :=
| Connect400
| Connect201 (total_nodes : list string).

(** [POST /connect_node]. [netloc_of] is [urlparse(address).netloc]. The
    outer [None] is no object, on which [.get] raises; the inner [None] is
    a missing ['nodes'] key. *)
Definition connect_node (netloc_of : string -> string)
    (json_data : option (option (list string))) (st : Blockchain)
  : option (connect_answer * Blockchain) :=
  match json_data with
  | None => None
  | Some None => Some (Connect400, st)
  | Some (Some nodes) =>
      let st' :=
        fold_left (fun s address => Node5001.add_node (netloc_of address) s)
          nodes st in
      Some (Connect201 (self_nodes st'), st')
  end.

(** [GET /replace_chain]: whether the chain was replaced, and the chain
    shown in the answer. *)
Definition replace_chain (fetch : string -> Node5001.peer_reply)
    (st : Blockchain) : option (bool * list Block * Blockchain) :=
  match Node5001.replace_chain fetch st with
  | Some (is_chain_replaced, st') =>
      Some (is_chain_replaced, self_chain st', st')
  | None => None
  end.

(** The state once the module is loaded: five [add_transaction] calls. *)
Definition start : Blockchain :=
  snd (add_transaction "Eve" "Alice" 60
    (snd (add_transaction "Diana" "Eve" 45
      (snd (add_transaction "Charlie" "Diana" 20
        (snd (add_transaction "Bob" "Charlie" 30
          (snd (add_transaction "Alice" "Bob" 50 init))))))))).

(** [POST /add_transaction]: the answer, the new state and the requests
    posted to [/receive_transaction] of the peers, one for each node, each
    with the three values. A post that fails is skipped. *)
Definition add_transaction (json_data : option tx_fields) (st : Blockchain)
  : tx_answer * Blockchain * list (string * Transaction) :=
  match required json_data with
  | None => (Tx400, st, [])
  | Some tx =>
      let '(number, st') :=
        add_transaction (sender tx) (receiver tx) (amount tx) st in
      (Tx201 number (Some (List.length (self_transactions st'))), st',
       map (fun node => (node, tx)) (self_nodes st'))
  end.

(** One request served. *)
Inductive serves (netloc_of : string -> string)
  : Blockchain -> Blockchain -> Prop :=
| serves_add_transaction : forall st json_data,
    serves netloc_of st (snd (fst (add_transaction json_data st)))
| serves_receive_transaction : forall st remote_addr json_data,
    serves netloc_of st (snd (receive_transaction remote_addr json_data st))
| serves_mine_block : forall st fuel now node_address answer,
    mine_block fuel now node_address st = Some answer ->
    serves netloc_of st (snd (fst answer))
| serves_sync_mempool : forall st remote_addr json_data answer,
    sync_mempool remote_addr json_data st = Some answer ->
    serves netloc_of st (snd answer)
| serves_connect_node : forall st json_data answer,
    connect_node netloc_of json_data st = Some answer ->
    serves netloc_of st (snd answer)
| serves_replace_chain : forall st fetch answer,
    replace_chain fetch st = Some answer ->
    serves netloc_of st (snd answer).

(** The states of a running node. *)
Inductive reachable (netloc_of : string -> string) : Blockchain -> Prop :=
| reachable_start : reachable netloc_of start
| reachable_serves : forall st st',
    reachable netloc_of st -> serves netloc_of st st' ->
    reachable netloc_of st'.

End Api5001.

(** ** The HTTP handlers of [blockchain.py] *)

Module ApiPy.

(** The answer of [/add_transaction]: 400, or 201 with the count of
    pending transactions. *)
Inductive add_answer : Type :=
| Add400
| Add201 (pending : nat).

(** [POST /add_transaction] *)
Definition add_transaction (json_data : option Api5001.tx_fields)
    (st : Blockchain) : add_answer * Blockchain :=
  match Api5001.required json_data with
  | None => (Add400, st)
  | Some tx =>
      let st' :=
        snd (create_transaction (sender tx) (receiver tx) (amount tx) st) in
      (Add201 (List.length (self_transactions st')), st')
  end.

(** The state once the module is loaded: five [create_transaction]
    calls. *)
Definition start : Blockchain :=
  snd (create_transaction "Eve" "Alice" 60
    (snd (create_transaction "Diana" "Eve" 45
      (snd (create_transaction "Charlie" "Diana" 20
        (snd (create_transaction "Bob" "Charlie" 30
          (snd (create_transaction "Alice" "Bob" 50 init))))))))).

(** One request served; the other routes only read. *)
Inductive serves : Blockchain -> Blockchain -> Prop :=
| serves_add_transaction : forall st json_data,
    serves st (snd (add_transaction json_data st))
| serves_mine_block : forall st fuel now answer,
    BlockchainPy.mine_block fuel now st = Some answer ->
    serves st (snd answer).

(** The states of the running program, from the five preloaded
    transactions. *)
Inductive reachable : Blockchain -> Prop :=
| reachable_start : reachable start
| reachable_serves : forall st st',
    reachable st -> serves st st' -> reachable st'.

End ApiPy.

(** ** What travels between nodes, and further sample states *)

Module Wire.

(** The object posted to [/receive_transaction], as the receiving handler
    reads it. *)
Definition json_of (tx : Transaction) : option Api5001.tx_fields :=
  Some (Api5001.mkFields (Some (sender tx)) (Some (receiver tx))
          (Some (amount tx))).

(** The object posted to [/sync_mempool], as the receiving handler reads
    it. *)
Definition json_of_mined (txs : list Transaction)
  : option (option (list Transaction)) :=
  Some (Some txs).

(** The loop of [/connect_node] over the addresses. *)
Definition register_all (netloc_of : string -> string)
    (nodes : list string) (st : Blockchain) : Blockchain :=
  fold_left (fun s address => Node5001.add_node (netloc_of address) s)
    nodes st.

(** Whether the colon occurs in a string. *)
Fixpoint has_colon (s : string) : bool :=
  match s with
  | EmptyString => false
  | String c rest => Ascii.eqb c ":" || has_colon rest
  end.

End Wire.

Module Sample2.

(** A second node, loaded, that has the first node registered. *)
Definition other : Blockchain :=
  mkBlockchain [] Sample.five ["10.0.0.1:5001"].

(** The first node, loaded, with the second one registered. *)
Definition first : Blockchain :=
  mkBlockchain [] Sample.five ["10.0.0.2:5002"].

Definition carol : Transaction := mkTransaction "Carol" "Dave" 7.

(** The first node after two blocks, with one peer registered. *)
Definition node2_peered : Blockchain :=
  mkBlockchain [Sample.block1; Sample.block2] [Sample.reward] [Sample.peer].

(** A block numbered 7 for which nonce 0 meets the difficulty. *)
Definition now7 : string := "2026-11-04 10:05:00.005285".

Definition block7 : Block :=
  mkBlock 7 now7 0 "0" (Json.dumps_tx Sample.mallory) [Sample.mallory]
    "0000d62c30fb81c63a382cc083e7e02eade8355e83ded3733f79c5dde37d1a3f".

End Sample2.

(** ** The earlier node, [Lab_3_Create a Cryptocurrency/hadcoin_node_5001.py] *)

Module Lab3.

(** A block of this node has neither a Merkle root nor a stored hash. *)
Record Block : Type := mkBlock
  { index : Z;
    timestamp : string;
    proof : Z;
    previous_hash : string;
    transactions : list Transaction }.

Record Blockchain : Type := mkBlockchain
  { self_chain : list Block;
    self_transactions : list Transaction;
    self_nodes : list string }.

(** [create_block]; [now] is [str(datetime.datetime.now())]. The block
    takes the list of pending transactions, and [self.transactions] is
    bound to a new empty list. *)
Definition create_block (now : string) (nonce : Z) (prev : string)
    (st : Blockchain) : Block * Blockchain :=
  let block :=
    mkBlock (Z.of_nat (List.length (self_chain st)) + 1) now nonce prev
      (self_transactions st) in
  (block, mkBlockchain (self_chain st ++ [block])%list [] (self_nodes st)).

(** [Blockchain.__init__], which creates the first block. *)
Definition init (now : string) : Blockchain :=
  snd (create_block now 1 "0" (mkBlockchain [] [] [])).

(** [self.chain[-1]]; [None] is [IndexError]. *)
Definition get_previous_block (st : Blockchain) : option Block :=
  last_item (self_chain st).

(** The string hashed for a pair of proofs. *)
Definition proof_input (new_proof previous_proof : Z) : string :=
  str (new_proof * new_proof - previous_proof * previous_proof).

(** [hash_operation[:4]] *)
Definition prefix4 (s : string) : string := substring 0 4 s.

(** The [while check_proof is False] loop, from [new_proof]. *)
Fixpoint pow_loop (fuel : nat) (previous_proof new_proof : Z) : option Z :=
  match fuel with
  | O => None
  | S fuel' =>
      let hash_operation := sha256 (proof_input new_proof previous_proof) in
      if String.eqb (prefix4 hash_operation) "0000" then Some new_proof
      else pow_loop fuel' previous_proof (new_proof + 1)
  end.

Definition proof_of_work (fuel : nat) (previous_proof : Z) : option Z :=
  pow_loop fuel previous_proof 1.

(** [json.dumps(block, sort_keys = True)] *)
Definition dumps_block (block : Block) : string :=
  "{" ++ Json.dumps_key "index" (str (index block)) ++ ", "
      ++ Json.dumps_key "previous_hash"
           (Json.dumps_str (previous_hash block)) ++ ", "
      ++ Json.dumps_key "proof" (str (proof block)) ++ ", "
      ++ Json.dumps_key "timestamp" (Json.dumps_str (timestamp block))
      ++ ", "
      ++ Json.dumps_key "transactions" (Json.dumps (transactions block))
      ++ "}".

(** [hash] *)
Definition hash (block : Block) : string := sha256 (dumps_block block).

(** The [while block_index < len(chain)] loop of [is_chain_valid]. *)
Fixpoint valid_loop (fuel : nat) (chain : list Block)
    (previous_block : Block) (block_index : nat) : option bool :=
  if (block_index <? List.length chain)%nat then
    match fuel with
    | O => None
    | S fuel' =>
        match nth_error chain block_index with
        | None => None
        | Some block =>
            if negb (String.eqb (previous_hash block) (hash previous_block))
            then Some false
            else
              let hash_operation :=
                sha256 (proof_input (proof block) (proof previous_block)) in
              if negb (String.eqb (prefix4 hash_operation) "0000")
              then Some false
              else valid_loop fuel' chain block (block_index + 1)
        end
    end
  else Some true.

(** [is_chain_valid]; [chain[0]] raises on the empty list. *)
Definition is_chain_valid (chain : list Block) : option bool :=
  match nth_error chain 0 with
  | None => None
  | Some previous_block =>
      valid_loop (List.length chain) chain previous_block 1
  end.

(** [add_transaction]: [None] is the [IndexError] of [self.chain[-1]]. *)
Definition add_transaction (s r : string) (a : Z) (st : Blockchain)
  : option (Z * Blockchain) :=
  let st' :=
    mkBlockchain (self_chain st)
      (self_transactions st ++ [mkTransaction s r a])%list
      (self_nodes st) in
  match get_previous_block st' with
  | None => None
  | Some previous_block => Some (index previous_block + 1, st')
  end.

(** [GET /mine_block]; the answer is the block. *)
Definition mine_block (fuel : nat) (now node_address : string)
    (st : Blockchain) : option (Block * Blockchain) :=
  match get_previous_block st with
  | None => None
  | Some previous_block =>
      let previous_proof := proof previous_block in
      match proof_of_work fuel previous_proof with
      | None => None
      | Some nonce =>
          let prev := hash previous_block in
          match add_transaction node_address "Richard" 1 st with
          | None => None
          | Some (_, st1) => Some (create_block now nonce prev st1)
          end
      end
  end.

(** What [requests.get] gives for one peer. A failed connection is not
    caught in this program. *)
Inductive peer_reply : Type :=
| ConnectionError
| NotOk
| Ok200 (length : Z) (chain : list Block).

(** One turn of the [for node in network] loop. *)
Definition scan_step (acc : option (list Block) * Z) (r : peer_reply)
  : option (option (list Block) * Z) :=
  match r with
  | ConnectionError => None
  | NotOk => Some acc
  | Ok200 length chain =>
      if (length >? snd acc)%Z then
        match is_chain_valid chain with
        | Some true => Some (Some chain, length)
        | Some false => Some acc
        | None => None
        end
      else Some acc
  end.

Fixpoint scan (fetch : string -> peer_reply) (network : list string)
    (acc : option (list Block) * Z) : option (option (list Block) * Z) :=
  match network with
  | [] => Some acc
  | node :: network' =>
      match scan_step acc (fetch node) with
      | Some acc' => scan fetch network' acc'
      | None => None
      end
  end.

Definition replace_chain (fetch : string -> peer_reply) (st : Blockchain)
  : option (bool * Blockchain) :=
  let max_length := Z.of_nat (List.length (self_chain st)) in
  match scan fetch (self_nodes st) (None, max_length) with
  | Some (Some (b :: c), _) =>
      Some (true, mkBlockchain (b :: c) (self_transactions st)
                    (self_nodes st))
  | Some _ => Some (false, st)
  | None => None
  end.

(** [add_node], given the [netloc] that [urlparse] finds in the address. *)
Definition add_node (netloc : string) (st : Blockchain) : Blockchain :=
  if existsb (String.eqb netloc) (self_nodes st) then st
  else mkBlockchain (self_chain st) (self_transactions st)
         (self_nodes st ++ [netloc])%list.

(** The states of the running node: the start, then any request that
    changes the state and returns. The flag tells whether a chain has been
    taken from a peer on the way. A request that raises leaves the state
    as it was: each method assigns only after its last read. *)
Inductive reachable : bool -> Blockchain -> Prop :=
| reachable_init : forall now, reachable false (init now)
| reachable_add_transaction : forall taken st s r a n st',
    reachable taken st -> add_transaction s r a st = Some (n, st') ->
    reachable taken st'
| reachable_mine_block : forall taken st fuel now node_address block st',
    reachable taken st ->
    mine_block fuel now node_address st = Some (block, st') ->
    reachable taken st'
| reachable_connect_node : forall taken st netloc,
    reachable taken st -> reachable taken (add_node netloc st)
| reachable_replace_chain : forall taken st fetch replaced st',
    reachable taken st ->
    replace_chain fetch st = Some (replaced, st') ->
    reachable (taken || replaced) st'.

(** The loop of [is_chain_valid] read on the blocks that remain. *)
Fixpoint links (previous_block : Block) (rest : list Block) : bool :=
  match rest with
  | [] => true
  | block :: rest' =>
      String.eqb (previous_hash block) (hash previous_block)
      && String.eqb
           (prefix4 (sha256 (proof_input (proof block)
                               (proof previous_block)))) "0000"
      && links block rest'
  end.

(** Sample chain: the first block and one mined block. *)
Definition genesis : Block :=
  mkBlock 1 "2026-11-04 09:00:00.000001" 1 "0" [].

Definition second : Block :=
  mkBlock 2 "2026-11-04 09:01:00.000002" 533
    "e42f51a17ec111559db2919e99ce64bb4b928997521464164cba5e7d2f602551"
    [mkTransaction "node5001" "Richard" 1].

End Lab3.

(** * Properties *)

(** ** The digest on known inputs *)

Example sha256_abc :
  sha256 "abc"
  = "ba7816bf8f01cfea414140de5dae2223b00361a396177a9cb410ff61f20015ad".
Proof. vm_compute. reflexivity. Qed.

Example sha256_two_blocks :
  sha256 "abcdbcdecdefdefgefghfghighijhijkijkljklmklmnlmnomnopnopq"
  = "248d6a61d20638b8e5c026930c3e6039a33ce45964ff2167f6ecedd419db06c1".
Proof. vm_compute. reflexivity. Qed.

(** ** Lists two elements at a time *)

Lemma list_pair_ind (A : Type) (P : list A -> Prop) :
  P [] ->
  (forall a, P [a]) ->
  (forall a b l, P l -> P (a :: b :: l)) ->
  forall l, P l.
Proof.
  intros Hnil Hone Hstep.
  assert (H : forall l, P l /\ forall a, P (a :: l)).
  { induction l as [|x l [IH1 IH2]]; split; auto. }
  intro l. apply H.
Qed.

Lemma range_step2_SS (n : nat) :
  range_step2 (S (S n)) = 0%nat :: map (fun i => S (S i)) (range_step2 n).
Proof.
  unfold range_step2.
  replace (S (S n) + 1)%nat with (S (S (n + 1))) by lia.
  cbn [Nat.div2 seq map]. f_equal.
  rewrite <- seq_shift, !map_map.
  apply map_ext. intro k. lia.
Qed.

Lemma hash_level_skip (a b : string) (l : list string) (idx : list nat) :
  hash_level (a :: b :: l) (map (fun i => S (S i)) idx) = hash_level l idx.
Proof.
  induction idx as [|i idx IH]; [reflexivity|].
  cbn [map hash_level]. rewrite IH.
  replace (S (S i) + 1)%nat with (S (S (i + 1))) by lia.
  reflexivity.
Qed.

(** On a level of even length the indexed loop computes the pairing. *)
Lemma hash_level_pair_up (l : list string) :
  Nat.even (List.length l) = true ->
  hash_level l (range_step2 (List.length l)) = Some (MerkleSpec.pair_up l).
Proof.
  induction l as [| a | a b l IH] using list_pair_ind; intro Hev.
  - reflexivity.
  - discriminate.
  - cbn [List.length] in *. rewrite range_step2_SS.
    cbn [hash_level nth_error Nat.add].
    rewrite hash_level_skip, IH by exact Hev.
    reflexivity.
Qed.

Lemma pair_up_length (l : list string) :
  List.length (MerkleSpec.pair_up l) = Nat.div2 (List.length l).
Proof.
  induction l as [| a | a b l IH] using list_pair_ind; cbn; auto.
Qed.

Lemma last_item_last (A : Type) (l : list A) (d : A) :
  l <> [] -> last_item l = Some (last l d).
Proof.
  intro Hne. destruct l as [|x l]; [congruence|].
  unfold last_item.
  assert (H : forall (y : A) (k : list A),
             nth_error (y :: k) (List.length (y :: k) - 1) = Some (last (y :: k) d)).
  { intros y k. revert y. induction k as [|z k IH]; intro y; [reflexivity|].
    specialize (IH z). cbn [List.length] in *.
    replace (S (S (List.length k)) - 1)%nat with (S (S (List.length k) - 1)) by lia.
    cbn [nth_error]. rewrite IH. reflexivity. }
  apply H.
Qed.

Lemma append_last_if_odd_make_even (l : list string) :
  l <> [] -> append_last_if_odd l = Some (MerkleSpec.make_even l).
Proof.
  intro Hne. unfold append_last_if_odd, MerkleSpec.make_even.
  destruct (Nat.odd (List.length l)); [|reflexivity].
  rewrite (last_item_last _ l EmptyString Hne). reflexivity.
Qed.

Lemma make_even_length (l : list string) :
  Nat.even (List.length (MerkleSpec.make_even l)) = true
  /\ List.length (MerkleSpec.make_even l)
     = (List.length l + (if Nat.odd (List.length l) then 1 else 0))%nat.
Proof.
  unfold MerkleSpec.make_even.
  destruct (Nat.odd (List.length l)) eqn:Hodd.
  - rewrite length_app. cbn [List.length]. split; [|reflexivity].
    replace (List.length l + 1)%nat with (S (List.length l)) by lia.
    rewrite Nat.even_succ. exact Hodd.
  - split; [|lia]. unfold Nat.odd in Hodd.
    destruct (Nat.even (List.length l)); [reflexivity|discriminate].
Qed.

Lemma next_level_length (l : list string) :
  (1 < List.length l)%nat ->
  (1 <= List.length (MerkleSpec.next_level l) < List.length l)%nat.
Proof.
  intro Hlen. unfold MerkleSpec.next_level.
  rewrite pair_up_length.
  destruct (make_even_length l) as [Hev Hl].
  set (m := List.length (MerkleSpec.make_even l)) in *.
  assert (Hm : m = (2 * Nat.div2 m)%nat).
  { rewrite (Nat.div2_odd m) at 1. unfold Nat.odd. rewrite Hev. cbn. lia. }
  destruct (Nat.odd (List.length l)) eqn:Hodd.
  - assert (List.length l <> 2)%nat.
    { intro E. rewrite E in Hodd. discriminate. }
    lia.
  - lia.
Qed.

(** One turn of the loop is one step of the description. *)
Lemma merkle_loop_step (fuel : nat) (l : list string) :
  (1 < List.length l)%nat ->
  merkle_loop (S fuel) l = merkle_loop fuel (MerkleSpec.next_level l).
Proof.
  intro Hlen. cbn [merkle_loop].
  destruct (Nat.ltb_spec 1 (List.length l)) as [_|Hle]; [|lia].
  assert (Hne : l <> []) by (destruct l; cbn in Hlen; [lia|congruence]).
  rewrite (append_last_if_odd_make_even l Hne).
  rewrite hash_level_pair_up by apply make_even_length.
  reflexivity.
Qed.

Lemma merkle_loop_reduces (fuel : nat) : forall l : list string,
  l <> [] -> (List.length l <= fuel)%nat ->
  exists root, merkle_loop fuel l = Some root /\ MerkleSpec.reduces l root.
Proof.
  induction fuel as [|fuel IH]; intros l Hne Hlen.
  - destruct l; [congruence|cbn in Hlen; lia].
  - destruct (Nat.ltb_spec 1 (List.length l)) as [Hgt|Hle].
    + rewrite merkle_loop_step by exact Hgt.
      pose proof (next_level_length l Hgt) as Hn.
      destruct (IH (MerkleSpec.next_level l)) as [root [Hr Hred]].
      * intro E. rewrite E in Hn. cbn in Hn. lia.
      * lia.
      * exists root. split; [exact Hr|].
        apply MerkleSpec.reduces_more; assumption.
    + destruct l as [|v [|w l]]; [congruence| |cbn in Hle; lia].
      exists v. split; [reflexivity|constructor].
Qed.

Lemma reduces_functional (l : list string) (r1 r2 : string) :
  MerkleSpec.reduces l r1 -> MerkleSpec.reduces l r2 -> r1 = r2.
Proof.
  intro H1. revert r2.
  induction H1 as [v|level root Hlen _ IH]; intros r2 H2.
  - inversion H2 as [|? ? Hlen2]; subst; [reflexivity|cbn in Hlen2; lia].
  - inversion H2 as [|? ? Hlen2 Hred2]; subst; [cbn in Hlen; lia|].
    apply IH. exact Hred2.
Qed.

(** C3. [get_merkle_root] of the empty list is the sentinel; of a
    non-empty list it is the one value left after repeatedly pairing and
    hashing the serialized transactions, the last value being doubled on
    every level of odd count; a single transaction is its own unhashed
    root; the root is determined by the list. *)
Theorem get_merkle_root_commits :
  get_merkle_root [] = Some "0"
  /\ (forall tx, get_merkle_root [tx] = Some (Json.dumps_tx tx))
  /\ (forall tx txs, exists root,
        get_merkle_root (tx :: txs) = Some root
        /\ MerkleSpec.commits (tx :: txs) root
        /\ (forall root',
              MerkleSpec.commits (tx :: txs) root' -> root' = root)).
Proof.
  split; [reflexivity|]. split; [reflexivity|].
  intros tx txs.
  destruct (merkle_loop_reduces (List.length (tx :: txs))
              (MerkleSpec.leaves (tx :: txs))) as [root [Hr Hred]].
  - discriminate.
  - unfold MerkleSpec.leaves. rewrite length_map. apply Nat.le_refl.
  - exists root. split; [exact Hr|]. split; [exact Hred|].
    intros root' Hred'. exact (reduces_functional _ _ _ Hred' Hred).
Qed.

Lemma get_merkle_root_total (txs : list Transaction) :
  exists root, get_merkle_root txs = Some root.
Proof.
  destruct txs as [|tx txs].
  - exists "0". reflexivity.
  - destruct (merkle_loop_reduces (List.length (tx :: txs))
                (map Json.dumps_tx (tx :: txs))) as [root [Hr _]].
    + discriminate.
    + rewrite length_map. apply Nat.le_refl.
    + exists root. exact Hr.
Qed.

(** Five transactions: the fifth leaf is doubled on the first level and
    the third digest on the second. *)
Lemma get_merkle_root_five (t1 t2 t3 t4 t5 : Transaction) :
  get_merkle_root [t1; t2; t3; t4; t5]
  = Some (sha256
            (sha256 (sha256 (Json.dumps_tx t1 ++ Json.dumps_tx t2)
                     ++ sha256 (Json.dumps_tx t3 ++ Json.dumps_tx t4))
             ++ sha256 (sha256 (Json.dumps_tx t5 ++ Json.dumps_tx t5)
                        ++ sha256 (Json.dumps_tx t5 ++ Json.dumps_tx t5)))).
Proof.
  unfold get_merkle_root. cbn [List.length map].
  rewrite !merkle_loop_step by (cbn; lia).
  reflexivity.
Qed.

(** ** Proof of work *)

Section ProofOfWork.

Variables (block_index : Z) (ts prev root : string).
Variable txs : list Transaction.

Lemma meets_difficulty_dec (n : Z) :
  {meets_difficulty block_index ts prev root txs n}
  + {~ meets_difficulty block_index ts prev root txs n}.
Proof. apply string_dec. Qed.

Lemma pow_loop_hit (fuel : nat) (n : Z) :
  meets_difficulty block_index ts prev root txs n ->
  pow_loop (S fuel) block_index ts prev root (Json.dumps txs) n = Some n.
Proof.
  intro Hg. cbn [pow_loop].
  unfold meets_difficulty in Hg. rewrite Hg. reflexivity.
Qed.

Lemma pow_loop_miss (fuel : nat) (n : Z) :
  ~ meets_difficulty block_index ts prev root txs n ->
  pow_loop (S fuel) block_index ts prev root (Json.dumps txs) n
  = pow_loop fuel block_index ts prev root (Json.dumps txs) (n + 1).
Proof.
  intro Hb. cbn [pow_loop].
  destruct (String.eqb_spec
              (prefix3 (sha256 (hash_input n block_index ts prev root
                                  (Json.dumps txs)))) "000") as [E|_].
  - exfalso. apply Hb. exact E.
  - reflexivity.
Qed.

(** Whatever the loop returns is the first nonce from its start that
    meets the difficulty. *)
Lemma pow_loop_sound (fuel : nat) : forall start m,
  pow_loop fuel block_index ts prev root (Json.dumps txs) start = Some m ->
  start <= m
  /\ meets_difficulty block_index ts prev root txs m
  /\ forall j, start <= j < m ->
       ~ meets_difficulty block_index ts prev root txs j.
Proof.
  induction fuel as [|fuel IH]; intros start m Hrun; [discriminate|].
  destruct (meets_difficulty_dec start) as [Hg|Hb].
  - rewrite pow_loop_hit in Hrun by exact Hg. inversion Hrun; subst.
    repeat split; [lia|exact Hg|intros; lia].
  - rewrite pow_loop_miss in Hrun by exact Hb.
    destruct (IH _ _ Hrun) as [Hle [Hg Hmin]].
    repeat split; [lia|exact Hg|].
    intros j Hj. destruct (Z.eq_dec j start) as [->|Hne]; [exact Hb|].
    apply Hmin. lia.
Qed.

(** A nonce [k] steps ahead that meets the difficulty makes the loop
    return within [k + 1] turns. *)
Lemma pow_loop_complete (k : nat) : forall start,
  meets_difficulty block_index ts prev root txs (start + Z.of_nat k) ->
  exists m,
    start <= m <= start + Z.of_nat k
    /\ forall fuel, (k < fuel)%nat ->
         pow_loop fuel block_index ts prev root (Json.dumps txs) start
         = Some m.
Proof.
  induction k as [|k IH]; intros start Hg.
  - replace (start + Z.of_nat 0) with start in Hg by lia.
    exists start. split; [lia|].
    intros [|fuel] Hf; [lia|]. apply pow_loop_hit. exact Hg.
  - destruct (meets_difficulty_dec start) as [Hs|Hb].
    + exists start. split; [lia|].
      intros [|fuel] Hf; [lia|]. apply pow_loop_hit. exact Hs.
    + destruct (IH (start + 1)) as [m [Hm Hrun]].
      * replace (start + 1 + Z.of_nat k) with (start + Z.of_nat (S k))
          by lia.
        exact Hg.
      * exists m. split; [lia|].
        intros [|fuel] Hf; [lia|].
        rewrite pow_loop_miss by exact Hb. apply Hrun. lia.
Qed.

End ProofOfWork.

(** C4. When some nonce [n >= 0] meets the difficulty, [proof_of_work]
    returns: from [n + 1] turns of the loop on it gives the same nonce [m],
    which meets the difficulty, is at most [n], and has no smaller
    non-negative nonce meeting it. *)
Theorem proof_of_work_least (block_index : Z) (ts prev root : string)
    (txs : list Transaction) (n : Z) :
  0 <= n ->
  meets_difficulty block_index ts prev root txs n ->
  exists m,
    (forall fuel, (Z.to_nat n < fuel)%nat ->
       proof_of_work fuel block_index ts prev root txs = Some m)
    /\ 0 <= m <= n
    /\ meets_difficulty block_index ts prev root txs m
    /\ (forall j, 0 <= j < m ->
          ~ meets_difficulty block_index ts prev root txs j).
Proof.
  intros Hn Hg.
  destruct (pow_loop_complete block_index ts prev root txs (Z.to_nat n) 0)
    as [m [Hm Hrun]].
  - rewrite Z2Nat.id by exact Hn. exact Hg.
  - rewrite Z2Nat.id in Hm by exact Hn.
    exists m. split; [exact Hrun|]. split; [lia|].
    assert (Hone : pow_loop (S (Z.to_nat n)) block_index ts prev root
                     (Json.dumps txs) 0 = Some m) by (apply Hrun; lia).
    destruct (pow_loop_sound block_index ts prev root txs _ _ _ Hone)
      as [_ [Hgm Hmin]].
    split; [exact Hgm|exact Hmin].
Qed.

(** ** Chain validation *)

Lemma check_commitments_true (b : Block) :
  check_commitments b = Some true <-> block_ok b.
Proof.
  unfold check_commitments, block_ok.
  destruct (get_merkle_root_total (transactions b)) as [r Hr]. rewrite Hr.
  destruct (String.eqb_spec r (merkle_root b)) as [->|Hne]; cbn [negb].
  - destruct (String.eqb_spec (prefix3 (compute_block_hash b)) "000")
      as [Hp|Hp]; cbn [negb].
    + destruct (String.eqb_spec (block_hash b) (compute_block_hash b))
        as [Hh|Hh]; cbn [negb].
      * split; [intros _; auto|reflexivity].
      * split; [discriminate|]. intros [_ [_ E]]. congruence.
    + split; [discriminate|]. intros [_ [E _]]. congruence.
  - split; [discriminate|]. intros [E _]. congruence.
Qed.

Lemma check_commitments_total (b : Block) :
  check_commitments b = Some true \/ check_commitments b = Some false.
Proof.
  unfold check_commitments.
  destruct (get_merkle_root_total (transactions b)) as [r Hr]. rewrite Hr.
  repeat match goal with
         | |- context [if ?c then _ else _] => destruct c
         end; auto.
Qed.

Lemma skipn_nth_error (A : Type) (l : list A) : forall i x,
  nth_error l i = Some x -> skipn i l = x :: skipn (S i) l.
Proof.
  induction l as [|y l IH]; intros [|i] x H; cbn in *; try discriminate.
  - inversion H. reflexivity.
  - apply IH. exact H.
Qed.

(** The indexed loop agrees with its reading on the remaining blocks. *)
Lemma valid_loop_links (chain : list Block) (fuel : nat) :
  forall previous_block i,
    (List.length chain - i <= fuel)%nat ->
    valid_loop fuel chain previous_block i
    = links previous_block (skipn i chain).
Proof.
  induction fuel as [|fuel IH]; intros previous_block i Hf.
  - cbn [valid_loop].
    destruct (Nat.ltb_spec i (List.length chain)) as [Hlt|Hge]; [lia|].
    rewrite skipn_all2 by lia. reflexivity.
  - cbn [valid_loop].
    destruct (Nat.ltb_spec i (List.length chain)) as [Hlt|Hge].
    + destruct (nth_error chain i) as [block|] eqn:Hnth.
      * rewrite (skipn_nth_error _ _ _ _ Hnth). cbn [links].
        destruct (negb (String.eqb (previous_hash block)
                          (block_hash previous_block))); [reflexivity|].
        destruct (check_commitments block) as [[|]|]; try reflexivity.
        replace (i + 1)%nat with (S i) by lia.
        apply IH. lia.
      * apply nth_error_None in Hnth. lia.
    + rewrite skipn_all2 by lia. reflexivity.
Qed.

Lemma is_chain_valid_cons (b : Block) (rest : list Block) :
  is_chain_valid (b :: rest)
  = if negb (String.eqb (previous_hash b) "0") then Some false
    else match check_commitments b with
         | Some true => links b rest
         | other => other
         end.
Proof.
  unfold is_chain_valid.
  destruct (negb (String.eqb (previous_hash b) "0")); [reflexivity|].
  destruct (check_commitments b) as [[|]|]; try reflexivity.
  rewrite valid_loop_links by (cbn [List.length]; lia).
  reflexivity.
Qed.

Lemma links_total (rest : list Block) : forall p,
  links p rest = Some true \/ links p rest = Some false.
Proof.
  induction rest as [|b rest IH]; intro p; cbn [links]; [auto|].
  destruct (negb (String.eqb (previous_hash b) (block_hash p))); [auto|].
  destruct (check_commitments_total b) as [-> | ->]; auto.
Qed.

Lemma links_true (rest : list Block) : forall p,
  links p rest = Some true
  <-> (forall i b, nth_error rest i = Some b -> block_ok b)
      /\ (forall i q b,
            nth_error (p :: rest) i = Some q ->
            nth_error rest i = Some b ->
            previous_hash b = block_hash q).
Proof.
  induction rest as [|b rest IH]; intro p.
  - cbn [links]. split; [|reflexivity].
    intros _. split; intros [|i]; cbn; intros; discriminate.
  - cbn [links].
    destruct (String.eqb_spec (previous_hash b) (block_hash p)) as [Hl|Hl];
      cbn [negb].
    + destruct (check_commitments_total b) as [Hc|Hc]; rewrite Hc.
      * rewrite IH. apply check_commitments_true in Hc.
        split.
        -- intros [Hok Hlk]. split.
           ++ intros [|i] x Hx; cbn in Hx;
                [inversion Hx; subst; exact Hc|eapply Hok; exact Hx].
           ++ intros [|i] q x Hq Hx; cbn in Hq, Hx.
              ** inversion Hq; inversion Hx; subst. exact Hl.
              ** eapply Hlk; [exact Hq|exact Hx].
        -- intros [Hok Hlk]. split.
           ++ intros i x Hx. apply (Hok (S i)). exact Hx.
           ++ intros i q x Hq Hx. apply (Hlk (S i)); assumption.
      * split; [discriminate|]. intros [Hok _].
        assert (Hb : block_ok b) by (apply (Hok 0%nat); reflexivity).
        apply check_commitments_true in Hb. congruence.
    + split; [discriminate|]. intros [_ Hlk].
      exfalso. apply Hl. apply (Hlk 0%nat); reflexivity.
Qed.

Lemma is_chain_valid_cons_iff (b : Block) (rest : list Block) :
  (is_chain_valid (b :: rest) = Some true <-> chain_conditions (b :: rest))
  /\ (is_chain_valid (b :: rest) = Some true
      \/ is_chain_valid (b :: rest) = Some false).
Proof.
  rewrite is_chain_valid_cons. unfold chain_conditions.
  destruct (String.eqb_spec (previous_hash b) "0") as [Hg|Hg]; cbn [negb].
  - destruct (check_commitments_total b) as [Hc|Hc]; rewrite Hc.
    + apply check_commitments_true in Hc. split; [|apply links_total].
      rewrite links_true. split.
      * intros [Hok Hlk]. split; [|split].
        -- intros x Hx. inversion Hx; subst. exact Hg.
        -- intros [|i] x Hx; cbn in Hx;
             [inversion Hx; subst; exact Hc|eapply Hok; exact Hx].
        -- intros i q x Hq Hx. cbn in Hx. eapply Hlk; [exact Hq|exact Hx].
      * intros [_ [Hok Hlk]]. split.
        -- intros i x Hx. apply (Hok (S i)). exact Hx.
        -- intros i q x Hq Hx. apply (Hlk i); assumption.
    + split; [|auto]. split; [discriminate|]. intros [_ [Hok _]].
      assert (Hb : block_ok b) by (apply (Hok 0%nat); reflexivity).
      apply check_commitments_true in Hb. congruence.
  - split; [|auto]. split; [discriminate|]. intros [H0 _].
    exfalso. apply Hg. apply H0. reflexivity.
Qed.

(** C2. [is_chain_valid] accepts the empty chain; on a non-empty chain it
    returns, and it returns true exactly when block 1 points at the
    sentinel, every block carries the recomputed Merkle root and a stored
    hash equal to the recomputed one beginning with three zero digits, and
    every later block points at the stored hash of the block before it. *)
Theorem is_chain_valid_iff :
  is_chain_valid [] = Some true
  /\ forall b rest,
       (is_chain_valid (b :: rest) = Some true
        <-> chain_conditions (b :: rest))
       /\ (is_chain_valid (b :: rest) = Some true
           \/ is_chain_valid (b :: rest) = Some false).
Proof.
  split; [reflexivity|]. intros b rest. apply is_chain_valid_cons_iff.
Qed.

(** ** Appending a mined block *)

Lemma last_cons (A : Type) (l : list A) : forall (x d : A),
  last (x :: l) d = last l x.
Proof.
  induction l as [|y l IH]; intros x d; [reflexivity|].
  change (last (x :: y :: l) d) with (last (y :: l) d).
  rewrite (IH y d), (IH y x). reflexivity.
Qed.

Lemma links_snoc (rest : list Block) : forall p b,
  links p rest = Some true ->
  previous_hash b = block_hash (last rest p) ->
  check_commitments b = Some true ->
  links p (rest ++ [b]) = Some true.
Proof.
  induction rest as [|x rest IH]; intros p b Hl Hp Hc.
  - cbn in *. rewrite Hp, String.eqb_refl. cbn [negb]. rewrite Hc.
    reflexivity.
  - cbn [app links] in *.
    destruct (negb (String.eqb (previous_hash x) (block_hash p)));
      [discriminate|].
    destruct (check_commitments x) as [[|]|]; try discriminate.
    apply IH; [exact Hl| |exact Hc].
    rewrite Hp. rewrite last_cons. reflexivity.
Qed.

Lemma link_of_chain (st : Blockchain) :
  link_of st
  = match self_chain st with
    | [] => "0"
    | b :: rest => block_hash (last rest b)
    end.
Proof.
  unfold link_of, get_previous_block.
  destruct (self_chain st); reflexivity.
Qed.

(** A block that is linked to the end of a valid chain and passes the
    checks keeps the chain valid. *)
Lemma is_chain_valid_snoc (st : Blockchain) (b : Block) :
  is_chain_valid (self_chain st) = Some true ->
  previous_hash b = link_of st ->
  check_commitments b = Some true ->
  is_chain_valid (self_chain st ++ [b]) = Some true.
Proof.
  intros Hv Hp Hc. rewrite link_of_chain in Hp.
  destruct (self_chain st) as [|c0 rest].
  - cbn [app]. rewrite is_chain_valid_cons, Hp. cbn. rewrite Hc.
    reflexivity.
  - cbn [app]. rewrite is_chain_valid_cons in *.
    destruct (negb (String.eqb (previous_hash c0) "0")); [discriminate|].
    destruct (check_commitments c0) as [[|]|]; try discriminate.
    apply links_snoc; assumption.
Qed.

Lemma mined_block_checks (chain : list Block) (fuel : nat) (now prev : string)
    (batch : list Transaction) (root : string) (nonce : Z) :
  get_merkle_root batch = Some root ->
  proof_of_work fuel (Z.of_nat (List.length chain) + 1) now prev root batch
  = Some nonce ->
  check_commitments
    (new_block chain nonce prev root batch now
       (sha256 (hash_input nonce (Z.of_nat (List.length chain) + 1) now prev
                  root (Json.dumps batch))))
  = Some true.
Proof.
  intros Hroot Hpow. apply check_commitments_true.
  unfold block_ok, compute_block_hash, new_block. cbn.
  split; [exact Hroot|]. split; [|reflexivity].
  unfold proof_of_work in Hpow.
  destruct (pow_loop_sound _ _ _ _ batch _ _ _ Hpow) as [_ [Hg _]].
  exact Hg.
Qed.

Lemma create_block_5001_chain (nonce : Z) (prev root : string)
    (txs : list Transaction) (ts hash : string) (st : Blockchain)
    (block : Block) (st' : Blockchain) :
  Node5001.create_block nonce prev root txs ts hash st = Some (block, st') ->
  block = new_block (self_chain st) nonce prev root txs ts hash
  /\ self_chain st' = (self_chain st ++ [block])%list
  /\ self_nodes st' = self_nodes st.
Proof.
  unfold Node5001.create_block.
  destruct (Node5001.discard_mined txs (self_transactions st));
    [|discriminate].
  intro H. inversion H; subst. cbn. auto.
Qed.

Lemma indexed_from_snoc (chain : list Block) : forall i b,
  indexed_from i chain = true ->
  index b = i + Z.of_nat (List.length chain) ->
  indexed_from i (chain ++ [b]) = true.
Proof.
  induction chain as [|x chain IH]; intros i b Hw Hb.
  - cbn in *. rewrite Hb. replace (i + 0) with i by lia.
    rewrite Z.eqb_refl. reflexivity.
  - cbn [app indexed_from] in *.
    apply andb_true_iff in Hw. destruct Hw as [Hx Hw].
    rewrite Hx. cbn [andb]. apply IH; [exact Hw|].
    rewrite Hb. cbn [List.length]. lia.
Qed.

Lemma well_indexed_snoc (chain : list Block) (b : Block) :
  well_indexed chain ->
  index b = Z.of_nat (List.length chain) + 1 ->
  well_indexed (chain ++ [b]).
Proof.
  intros Hw Hb. apply indexed_from_snoc; [exact Hw|]. rewrite Hb. lia.
Qed.

Lemma pipeline_invariant (st : Blockchain) :
  pipeline st ->
  is_chain_valid (self_chain st) = Some true /\ well_indexed (self_chain st).
Proof.
  induction 1 as [pending nodes
                 | st pending _ IH
                 | st fuel now batch root nonce block st' _ IH Hroot Hpow Hcb
                 | st fuel now batch root nonce block st' _ IH Hroot Hpow Hcb].
  - split; reflexivity.
  - exact IH.
  - destruct IH as [Hv Hw].
    apply create_block_5001_chain in Hcb. destruct Hcb as [Hb [Hc _]].
    rewrite Hc. split.
    + apply is_chain_valid_snoc; [exact Hv|subst block; reflexivity|].
      subst block. eapply mined_block_checks; eassumption.
    + apply well_indexed_snoc; [exact Hw|subst block; reflexivity].
  - destruct IH as [Hv Hw].
    unfold BlockchainPy.create_block in Hcb. inversion Hcb; subst block st'.
    cbn [self_chain set_chain]. split.
    + apply is_chain_valid_snoc; [exact Hv|reflexivity|].
      eapply mined_block_checks; eassumption.
    + apply well_indexed_snoc; [exact Hw|reflexivity].
Qed.

(** C1. Every chain built from the empty chain by mining turns only is
    accepted by [is_chain_valid]. *)
Theorem pipeline_chain_valid (st : Blockchain) :
  pipeline st -> is_chain_valid (self_chain st) = Some true.
Proof.
  intro H. apply pipeline_invariant. exact H.
Qed.

(** ** The [/mine_block] handlers *)

Lemma add_transaction_state (s r : string) (a : Z) (st : Blockchain) :
  snd (add_transaction s r a st)
  = set_transactions (self_transactions st ++ [mkTransaction s r a]) st.
Proof.
  unfold add_transaction.
  destruct (get_previous_block _); reflexivity.
Qed.

(** A turn of [/mine_block] of [hadcoin_node_5001.py] is a turn of the
    pipeline. *)
Lemma mine_block_5001_pipeline (fuel : nat) (now node_address : string)
    (st : Blockchain) (r : reply) (st' : Blockchain) :
  pipeline st ->
  Node5001.mine_block fuel now node_address st = Some (r, st') ->
  pipeline st'.
Proof.
  intros Hp. unfold Node5001.mine_block.
  destruct (List.length (self_transactions st) <? 1)%nat.
  - intro H. inversion H; subst. exact Hp.
  - rewrite add_transaction_state.
    set (st1 := set_transactions _ st).
    assert (Hp1 : pipeline st1) by (apply pipeline_pending; exact Hp).
    fold (link_of st1).
    destruct (get_merkle_root (firstn 5 (self_transactions st)))
      as [root|] eqn:Hroot; [|discriminate].
    destruct (proof_of_work fuel _ now (link_of st1) root _)
      as [nonce|] eqn:Hpow; [|discriminate].
    destruct (Node5001.create_block _ _ _ _ _ _ st1)
      as [[block st2]|] eqn:Hcb; [|discriminate].
    intro H. inversion H; subst.
    eapply pipeline_turn; eassumption.
Qed.

(** A turn of [/mine_block] of [blockchain.py] is a turn of the pipeline. *)
Lemma mine_block_py_pipeline (fuel : nat) (now : string)
    (st : Blockchain) (r : reply) (st' : Blockchain) :
  pipeline st ->
  BlockchainPy.mine_block fuel now st = Some (r, st') ->
  pipeline st'.
Proof.
  intros Hp. unfold BlockchainPy.mine_block.
  destruct (List.length (self_transactions st) <? 5)%nat.
  - intro H. inversion H; subst. exact Hp.
  - set (st1 := set_transactions _ st).
    assert (Hp1 : pipeline st1) by (apply pipeline_pending; exact Hp).
    fold (link_of st1).
    destruct (get_merkle_root (firstn 5 (self_transactions st)))
      as [root|] eqn:Hroot; [|discriminate].
    destruct (proof_of_work fuel _ now (link_of st1) root _)
      as [nonce|] eqn:Hpow; [|discriminate].
    destruct (BlockchainPy.create_block _ _ _ _ _ _ st1)
      as [block st2] eqn:Hcb.
    intro H. inversion H; subst.
    eapply pipeline_turn_py; eassumption.
Qed.

Lemma add_transaction_pipeline (s r : string) (a : Z) (st : Blockchain) :
  pipeline st -> pipeline (snd (add_transaction s r a st)).
Proof.
  intro Hp. rewrite add_transaction_state. apply pipeline_pending. exact Hp.
Qed.

(** The sample states are reached by the programs. *)
Lemma sample_preloaded :
  snd (add_transaction "Eve" "Alice" 60
         (snd (add_transaction "Diana" "Eve" 45
                 (snd (add_transaction "Charlie" "Diana" 20
                         (snd (add_transaction "Bob" "Charlie" 30
                                 (snd (add_transaction "Alice" "Bob" 50
                                         init)))))))))
  = Sample.preloaded.
Proof. reflexivity. Qed.

Lemma sample_mine_block :
  Node5001.mine_block 1 Sample.now1 "node5001" Sample.preloaded
  = Some (Reply200 Sample.block1, Sample.node1).
Proof. vm_compute. reflexivity. Qed.

Lemma sample_mine_block_again :
  Node5001.mine_block 1 Sample.now2 "node5001" Sample.node1
  = Some (Reply200 Sample.block2, Sample.node2).
Proof. vm_compute. reflexivity. Qed.

Lemma sample_mine_block_py :
  BlockchainPy.mine_block 1 Sample.now1 Sample.preloaded
  = Some (Reply200 Sample.block1, Sample.single1).
Proof. vm_compute. reflexivity. Qed.

Lemma sample_add_node :
  Node5001.add_node Sample.peer Sample.node1 = Sample.node1_peered
  /\ Node5001.add_node Sample.peer Sample.preloaded = Sample.fresh.
Proof. split; reflexivity. Qed.

Lemma pipeline_chain_valid_witness :
  pipeline Sample.node2
  /\ is_chain_valid (self_chain Sample.node2) = Some true.
Proof.
  assert (H : pipeline Sample.node2).
  { eapply mine_block_5001_pipeline; [|exact sample_mine_block_again].
    eapply mine_block_5001_pipeline; [|exact sample_mine_block].
    apply pipeline_init. }
  split; [exact H|].
  exact (pipeline_chain_valid Sample.node2 H).
Defined.

Lemma proof_of_work_least_witness :
  0 <= 4638
  /\ meets_difficulty 7 Sample.now7 "0"
       (Json.dumps_tx Sample.mallory) [Sample.mallory] 4638
  /\ exists m,
       (forall fuel, (Z.to_nat 4638 < fuel)%nat ->
          proof_of_work fuel 7 Sample.now7 "0"
            (Json.dumps_tx Sample.mallory) [Sample.mallory] = Some m)
       /\ 0 <= m <= 4638
       /\ meets_difficulty 7 Sample.now7 "0"
            (Json.dumps_tx Sample.mallory) [Sample.mallory] m
       /\ (forall j, 0 <= j < m ->
             ~ meets_difficulty 7 Sample.now7 "0"
                 (Json.dumps_tx Sample.mallory) [Sample.mallory] j).
Proof.
  assert (H0 : 0 <= 4638) by lia.
  assert (H1 : meets_difficulty 7 Sample.now7 "0"
                 (Json.dumps_tx Sample.mallory) [Sample.mallory] 4638)
    by (vm_compute; reflexivity).
  split; [exact H0|]. split; [exact H1|].
  exact (proof_of_work_least 7 Sample.now7 "0"
           (Json.dumps_tx Sample.mallory) [Sample.mallory] 4638 H0 H1).
Defined.

(** C9. With fewer pending transactions than the handler asks for (one in
    [hadcoin_node_5001.py], five in [blockchain.py]), [/mine_block] answers
    400 and the chain, the pending transactions and the peers are what they
    were. *)
Theorem mine_block_too_few (fuel : nat) (now node_address : string)
    (st : Blockchain) :
  ((List.length (self_transactions st) < 1)%nat ->
   Node5001.mine_block fuel now node_address st = Some (Reply400, st))
  /\ ((List.length (self_transactions st) < 5)%nat ->
      BlockchainPy.mine_block fuel now st = Some (Reply400, st)).
Proof.
  split; intro Hlt.
  - unfold Node5001.mine_block.
    destruct (Nat.ltb_spec (List.length (self_transactions st)) 1);
      [reflexivity|lia].
  - unfold BlockchainPy.mine_block.
    destruct (Nat.ltb_spec (List.length (self_transactions st)) 5);
      [reflexivity|lia].
Qed.

Lemma mine_block_too_few_witness :
  (List.length (self_transactions init) < 1)%nat
  /\ Node5001.mine_block 0 Sample.now1 "node5001" init
     = Some (Reply400, init)
  /\ (List.length (self_transactions Sample.single1) < 5)%nat
  /\ BlockchainPy.mine_block 0 Sample.now2 Sample.single1
     = Some (Reply400, Sample.single1).
Proof.
  assert (H1 : (List.length (self_transactions init) < 1)%nat)
    by (cbn; lia).
  assert (H2 : (List.length (self_transactions Sample.single1) < 5)%nat)
    by (cbn; lia).
  split; [exact H1|]. split.
  - exact (proj1 (mine_block_too_few 0 Sample.now1 "node5001" init) H1).
  - split; [exact H2|].
    exact (proj2 (mine_block_too_few 0 Sample.now2 "node5001"
                    Sample.single1) H2).
Defined.

(** ** [create_block] and the mempool *)

Lemma tx_eqb_eq (a b : Transaction) : tx_eqb a b = true <-> a = b.
Proof.
  unfold tx_eqb. destruct a as [s1 r1 a1], b as [s2 r2 a2]. cbn.
  rewrite !andb_true_iff, !String.eqb_eq, Z.eqb_eq.
  split.
  - intros [[-> ->] ->]. reflexivity.
  - intro H. inversion H. auto.
Qed.

Lemma tx_eqb_refl (a : Transaction) : tx_eqb a a = true.
Proof. apply tx_eqb_eq. reflexivity. Qed.

Lemma list_contains_In (tx : Transaction) (l : list Transaction) :
  list_contains tx l = true <-> In tx l.
Proof.
  unfold list_contains. rewrite existsb_exists. split.
  - intros [y [Hin Hy]]. apply tx_eqb_eq in Hy. subst. exact Hin.
  - intro Hin. exists tx. split; [exact Hin|apply tx_eqb_refl].
Qed.

(** Behind the membership test, [remove] does not raise. *)
Lemma list_remove_present (tx : Transaction) (l : list Transaction) :
  list_contains tx l = true -> list_remove tx l = Some (remove_first tx l).
Proof.
  induction l as [|y l IH]; [discriminate|].
  cbn. destruct (tx_eqb y tx); [reflexivity|].
  cbn. intro H. rewrite (IH H). reflexivity.
Qed.

Lemma remove_first_absent (tx : Transaction) (l : list Transaction) :
  list_contains tx l = false -> remove_first tx l = l.
Proof.
  induction l as [|y l IH]; [reflexivity|].
  cbn. destruct (tx_eqb y tx); [discriminate|].
  cbn. intro H. rewrite (IH H). reflexivity.
Qed.

(** What [remove_first] removes is the first occurrence. *)
Lemma remove_first_split (tx : Transaction) (l : list Transaction) :
  In tx l ->
  exists before after,
    l = (before ++ tx :: after)%list
    /\ ~ In tx before
    /\ remove_first tx l = (before ++ after)%list.
Proof.
  induction l as [|y l IH]; [intros []|].
  intro Hin. cbn [remove_first].
  destruct (tx_eqb y tx) eqn:E.
  - apply tx_eqb_eq in E. subst y.
    exists [], l. repeat split. intros [].
  - assert (Hne : y <> tx).
    { intro H. apply tx_eqb_eq in H. congruence. }
    destruct Hin as [H|Hin]; [congruence|].
    destruct (IH Hin) as [before [after [Hl [Hnot Hr]]]].
    exists (y :: before), after. cbn. repeat split.
    + rewrite Hl at 1. reflexivity.
    + intros [H|H]; [congruence|exact (Hnot H)].
    + rewrite Hr. reflexivity.
Qed.

Lemma discard_mined_remove_batch (txs : list Transaction) :
  forall pending,
    Node5001.discard_mined txs pending = Some (remove_batch txs pending).
Proof.
  induction txs as [|tx txs IH]; intro pending; [reflexivity|].
  cbn [Node5001.discard_mined remove_batch fold_left].
  destruct (list_contains tx pending) eqn:E.
  - rewrite (list_remove_present _ _ E). apply IH.
  - rewrite (remove_first_absent _ _ E). apply IH.
Qed.

Lemma subsequence_refl (A : Type) (l : list A) : subsequence l l.
Proof. induction l; constructor; assumption. Qed.

Lemma subsequence_trans (A : Type) (l3 : list A) : forall l1 l2,
  subsequence l1 l2 -> subsequence l2 l3 -> subsequence l1 l3.
Proof.
  induction l3 as [|x l3 IH]; intros l1 l2 H12 H23.
  - inversion H23; subst. exact H12.
  - inversion H23 as [|? ? ? H|? ? ? H]; subst.
    + constructor. eapply IH; eassumption.
    + inversion H12 as [|? ? ? H'|? ? ? H']; subst.
      * constructor. eapply IH; eassumption.
      * apply subsequence_keep. eapply IH; eassumption.
Qed.

Lemma remove_first_subsequence (tx : Transaction) (l : list Transaction) :
  subsequence (remove_first tx l) l.
Proof.
  induction l as [|y l IH]; [constructor|].
  cbn. destruct (tx_eqb y tx).
  - constructor. apply subsequence_refl.
  - apply subsequence_keep. exact IH.
Qed.

Lemma remove_batch_subsequence (txs : list Transaction) : forall pending,
  subsequence (remove_batch txs pending) pending.
Proof.
  induction txs as [|tx txs IH]; intro pending.
  - apply subsequence_refl.
  - cbn [remove_batch fold_left].
    eapply subsequence_trans; [apply IH|apply remove_first_subsequence].
Qed.

Lemma occurrences_remove_first (v tx : Transaction) (l : list Transaction) :
  occurrences v (remove_first tx l)
  = (occurrences v l - (if tx_eqb tx v then 1 else 0))%nat.
Proof.
  induction l as [|y l IH]; [reflexivity|].
  cbn [remove_first occurrences].
  destruct (tx_eqb y tx) eqn:E.
  - apply tx_eqb_eq in E. subst y.
    destruct (tx_eqb tx v); lia.
  - cbn [occurrences]. rewrite IH.
    destruct (tx_eqb y v) eqn:Ey; [|lia].
    destruct (tx_eqb tx v) eqn:Et; [|lia].
    apply tx_eqb_eq in Ey, Et. subst.
    rewrite tx_eqb_refl in E. discriminate.
Qed.

Lemma occurrences_remove_batch (v : Transaction) (txs : list Transaction) :
  forall pending,
    occurrences v (remove_batch txs pending)
    = (occurrences v pending - occurrences v txs)%nat.
Proof.
  induction txs as [|tx txs IH]; intro pending.
  - cbn. lia.
  - cbn [remove_batch fold_left occurrences].
    change (fold_left (fun m t => remove_first t m) txs
              (remove_first tx pending))
      with (remove_batch txs (remove_first tx pending)).
    rewrite IH, occurrences_remove_first. lia.
Qed.

(** C7. [create_block] returns; the chain is the old chain followed by one
    block numbered [len(chain) + 1] that holds the arguments; the old
    blocks are where they were; the peers are untouched; the pending
    transactions lose, for each transaction of the batch in turn, the first
    pending transaction equal to it when there is one, and nothing else:
    what is left is in its original order, and each value is left as many
    times as it was pending less the times it is in the batch. In
    [blockchain.py] the same block is appended and the pending transactions
    are not touched by [create_block]. *)
Theorem create_block_frame (nonce : Z) (prev root : string)
    (txs : list Transaction) (ts hash : string) (st : Blockchain) :
  let block := mkBlock (Z.of_nat (List.length (self_chain st)) + 1) ts nonce
                 prev root txs hash in
  Node5001.create_block nonce prev root txs ts hash st
  = Some (block,
          mkBlockchain (self_chain st ++ [block])
            (remove_batch txs (self_transactions st)) (self_nodes st))
  /\ (forall i b, nth_error (self_chain st) i = Some b ->
        nth_error (self_chain st ++ [block]) i = Some b)
  /\ List.length (self_chain st ++ [block]) = S (List.length (self_chain st))
  /\ subsequence (remove_batch txs (self_transactions st))
       (self_transactions st)
  /\ (forall v,
        occurrences v (remove_batch txs (self_transactions st))
        = (occurrences v (self_transactions st) - occurrences v txs)%nat)
  /\ (forall tx pending,
        (In tx pending ->
         exists before after,
           pending = (before ++ tx :: after)%list
           /\ ~ In tx before
           /\ remove_first tx pending = (before ++ after)%list)
        /\ (~ In tx pending -> remove_first tx pending = pending))
  /\ BlockchainPy.create_block nonce prev root txs ts hash st
     = (block,
        mkBlockchain (self_chain st ++ [block]) (self_transactions st)
          (self_nodes st)).
Proof.
  intro block. repeat split.
  - unfold Node5001.create_block.
    rewrite discard_mined_remove_batch. reflexivity.
  - intros i b Hb. rewrite nth_error_app1; [exact Hb|].
    apply nth_error_Some. congruence.
  - rewrite length_app. cbn. lia.
  - apply remove_batch_subsequence.
  - intro v. apply occurrences_remove_batch.
  - apply remove_first_split.
  - intro Hnot. apply remove_first_absent.
    destruct (list_contains tx pending) eqn:E; [|reflexivity].
    apply list_contains_In in E. contradiction.
Qed.

(** ** [add_transaction] / [create_transaction] *)

Lemma indexed_from_last (rest : list Block) : forall i b,
  indexed_from i (b :: rest) = true ->
  index (last rest b) = i + Z.of_nat (List.length rest).
Proof.
  induction rest as [|x rest IH]; intros i b Hw.
  - cbn in *. apply andb_true_iff in Hw. destruct Hw as [Hb _].
    apply Z.eqb_eq in Hb. lia.
  - cbn [indexed_from] in Hw. apply andb_true_iff in Hw.
    destruct Hw as [_ Hw].
    rewrite last_cons. rewrite (IH (i + 1) x Hw).
    cbn [List.length]. lia.
Qed.

Lemma pipeline_well_indexed (st : Blockchain) :
  pipeline st -> well_indexed (self_chain st).
Proof. intro H. apply pipeline_invariant. exact H. Qed.

(** C8, as the program has it. The transaction goes to the end of the
    pending transactions and nothing else changes; the number returned is 1
    on an empty chain and the stored [index] of the last block plus one
    otherwise; that is [len(chain) + 1] whenever every block is numbered by
    its position, as in every chain built by mining turns. *)
Theorem add_transaction_position (s r : string) (a : Z) (st : Blockchain) :
  snd (add_transaction s r a st)
  = mkBlockchain (self_chain st)
      (self_transactions st ++ [mkTransaction s r a]) (self_nodes st)
  /\ fst (add_transaction s r a st)
     = match self_chain st with
       | [] => 1
       | b :: rest => index (last rest b) + 1
       end
  /\ (well_indexed (self_chain st) ->
      fst (add_transaction s r a st)
      = match self_chain st with
        | [] => 1
        | _ => Z.of_nat (List.length (self_chain st)) + 1
        end)
  /\ (pipeline st -> well_indexed (self_chain st)).
Proof.
  assert (Hfst : fst (add_transaction s r a st)
                 = match self_chain st with
                   | [] => 1
                   | b :: rest => index (last rest b) + 1
                   end).
  { unfold add_transaction, get_previous_block. cbn [self_chain set_transactions].
    destruct (self_chain st); reflexivity. }
  split; [apply add_transaction_state|]. split; [exact Hfst|].
  split; [|apply pipeline_well_indexed].
  intro Hw. rewrite Hfst. unfold well_indexed in Hw.
  destruct (self_chain st) as [|b rest]; [reflexivity|].
  rewrite (indexed_from_last rest 1 b Hw). cbn [List.length]. lia.
Qed.

Lemma add_transaction_position_witness :
  well_indexed (self_chain Sample.node1)
  /\ fst (add_transaction "Bob" "Charlie" 30 Sample.node1) = 2.
Proof.
  assert (H : well_indexed (self_chain Sample.node1)) by reflexivity.
  split; [exact H|].
  exact (proj1 (proj2 (proj2
           (add_transaction_position "Bob" "Charlie" 30 Sample.node1))) H).
Defined.

(** ** [replace_chain] *)

Lemma is_chain_valid_total (chain : list Block) :
  is_chain_valid chain = Some true \/ is_chain_valid chain = Some false.
Proof.
  destruct chain as [|b rest]; [left; reflexivity|].
  apply is_chain_valid_cons_iff.
Qed.

(** One turn of the loop takes the reply or keeps the running pair. *)
Lemma scan_step_takes (acc : option (list Block) * Z)
    (r : Node5001.peer_reply) :
  Node5001.scan_step acc r
  = Some (if ResolveSpec.takes (snd acc) r
          then (Some (snd (ResolveSpec.reported r)),
                fst (ResolveSpec.reported r))
          else acc).
Proof.
  destruct r as [| |len chain]; try reflexivity.
  unfold Node5001.scan_step, ResolveSpec.takes, ResolveSpec.accepts_chain.
  destruct (len >? snd acc); [|reflexivity].
  destruct (is_chain_valid_total chain) as [-> | ->]; reflexivity.
Qed.

Lemma scan_running (fetch : string -> Node5001.peer_reply)
    (network : list string) : forall acc,
  Node5001.scan fetch network acc
  = Some (ResolveSpec.running (map fetch network) acc).
Proof.
  induction network as [|node network IH]; intro acc; [reflexivity|].
  cbn [Node5001.scan map ResolveSpec.running].
  rewrite scan_step_takes.
  destruct (ResolveSpec.takes (snd acc) (fetch node)); apply IH.
Qed.

Lemma takes_true (m : Z) (r : Node5001.peer_reply) :
  ResolveSpec.takes m r = true ->
  exists len chain,
    r = Node5001.Ok200 len chain
    /\ m < len /\ ResolveSpec.accepts_chain chain = true.
Proof.
  destruct r as [| |len chain]; try discriminate.
  cbn. intro H. apply andb_true_iff in H. destruct H as [Hl Hv].
  exists len, chain. repeat split; [lia|exact Hv].
Qed.

Lemma takes_false (m len : Z) (chain : list Block) :
  ResolveSpec.takes m (Node5001.Ok200 len chain) = false ->
  ResolveSpec.accepts_chain chain = true -> len <= m.
Proof.
  cbn. intros H Hv. rewrite Hv, andb_true_r in H. lia.
Qed.

(** The running pair after the scan: untouched when no accepted chain is
    reported longer than the bound, and otherwise the first accepted chain
    to report the greatest length. *)
Lemma running_first_longest (replies : list Node5001.peer_reply) :
  forall w m,
    (ResolveSpec.running replies (w, m) = (w, m)
     /\ ResolveSpec.none_longer replies m)
    \/ (exists i len chain,
          ResolveSpec.first_longest replies m i len chain
          /\ ResolveSpec.running replies (w, m) = (Some chain, len)).
Proof.
  induction replies as [|r rest IH]; intros w m.
  - left. split; [reflexivity|]. intros [|j] l c H; discriminate.
  - cbn [ResolveSpec.running snd].
    destruct (ResolveSpec.takes m r) eqn:Htake.
    + destruct (takes_true _ _ Htake) as [len0 [c0 [-> [Hlt Hv]]]].
      cbn [ResolveSpec.reported fst snd].
      right. destruct (IH (Some c0) len0) as [[Hrun Hnone]|[i [len [c [Hf Hrun]]]]].
      * exists 0%nat, len0, c0. split; [|exact Hrun].
        split; [reflexivity|]. split; [exact Hv|]. split; [exact Hlt|].
        intros [|j] l c Hj Hc; cbn in Hj.
        -- inversion Hj; subst. split; [lia|lia].
        -- split; [lia|]. eapply Hnone; eassumption.
      * destruct Hf as [Hn [Hvc [Hb Hall]]].
        exists (S i), len, c. split; [|exact Hrun].
        split; [exact Hn|]. split; [exact Hvc|]. split; [lia|].
        intros [|j] l c' Hj Hc; cbn in Hj.
        -- inversion Hj; subst. split; lia.
        -- destruct (Hall j l c' Hj Hc) as [H1 H2]. split; [|exact H2].
           intro. apply H1. lia.
    + destruct (IH w m) as [[Hrun Hnone]|[i [len [c [Hf Hrun]]]]].
      * left. split; [exact Hrun|].
        intros [|j] l c Hj Hc; cbn in Hj.
        -- inversion Hj; subst. eapply takes_false; eassumption.
        -- eapply Hnone; eassumption.
      * destruct Hf as [Hn [Hvc [Hb Hall]]].
        right. exists (S i), len, c. split; [|exact Hrun].
        split; [exact Hn|]. split; [exact Hvc|]. split; [exact Hb|].
        intros [|j] l c' Hj Hc; cbn in Hj.
        -- inversion Hj; subst.
           pose proof (takes_false _ _ _ Htake Hc). split; lia.
        -- destruct (Hall j l c' Hj Hc) as [H1 H2]. split; [|exact H2].
           intro. apply H1. lia.
Qed.

Lemma replace_chain_running (fetch : string -> Node5001.peer_reply)
    (st : Blockchain) :
  Node5001.replace_chain fetch st
  = Some
      (match fst (ResolveSpec.running (map fetch (self_nodes st))
                    (None, Z.of_nat (List.length (self_chain st)))) with
       | Some (b :: c) => (true, set_chain (b :: c) st)
       | _ => (false, st)
       end).
Proof.
  unfold Node5001.replace_chain. rewrite scan_running.
  destruct (ResolveSpec.running _ _) as [[[|b c]|] m]; reflexivity.
Qed.

(** C5, as the program has it. Every peer is scanned in turn; a reply
    becomes the running winner exactly when it arrived with status 200,
    reports a length strictly above the running maximum and carries a chain
    that [is_chain_valid] accepts. After the scan, when some reply was
    taken and the chain of the last one taken (the first accepted chain to
    report the greatest length) is not the empty list, the local chain is
    replaced by it and the result is true; when no reply was taken, or the
    chain of the last one taken is the empty list, the state is untouched
    and the result is false. *)
Theorem replace_chain_resolves (fetch : string -> Node5001.peer_reply)
    (st : Blockchain) :
  let replies := map fetch (self_nodes st) in
  let local := Z.of_nat (List.length (self_chain st)) in
  (forall acc r,
     Node5001.scan_step acc r
     = Some (if ResolveSpec.takes (snd acc) r
             then (Some (snd (ResolveSpec.reported r)),
                   fst (ResolveSpec.reported r))
             else acc))
  /\ Node5001.scan fetch (self_nodes st) (None, local)
     = Some (ResolveSpec.running replies (None, local))
  /\ ((exists i len b c,
         ResolveSpec.first_longest replies local i len (b :: c)
         /\ Node5001.replace_chain fetch st
            = Some (true, set_chain (b :: c) st))
      \/ ((ResolveSpec.none_longer replies local
           \/ exists i len, ResolveSpec.first_longest replies local i len [])
          /\ Node5001.replace_chain fetch st = Some (false, st))).
Proof.
  intros replies local.
  split; [apply scan_step_takes|]. split; [apply scan_running|].
  rewrite replace_chain_running. fold replies local.
  destruct (running_first_longest replies None local)
    as [[Hrun Hnone]|[i [len [chain [Hf Hrun]]]]]; rewrite Hrun; cbn [fst].
  - right. split; [left; exact Hnone|reflexivity].
  - destruct chain as [|b c].
    + right. split; [right; exists i, len; exact Hf|reflexivity].
    + left. exists i, len, b, c. split; [exact Hf|reflexivity].
Qed.

(** On the sample node a peer that reports length 2 and sends no block is
    the winner of the description, differs from the local chain, and the
    program keeps the local chain and answers false. *)
Lemma replace_chain_counterexample :
  ResolveSpec.winner Sample.peer_empty Sample.node1_peered = []
  /\ Node5001.replace_chain Sample.peer_empty Sample.node1_peered
     = Some (false, Sample.node1_peered)
  /\ ~ ResolveSpec.described Sample.peer_empty Sample.node1_peered
         (Node5001.replace_chain Sample.peer_empty Sample.node1_peered).
Proof.
  assert (Hw : ResolveSpec.winner Sample.peer_empty Sample.node1_peered = [])
    by reflexivity.
  assert (Hr : Node5001.replace_chain Sample.peer_empty Sample.node1_peered
               = Some (false, Sample.node1_peered)) by reflexivity.
  split; [exact Hw|]. split; [exact Hr|].
  intros [Hd _]. rewrite Hw, Hr in Hd.
  assert (Hne : [] <> self_chain Sample.node1_peered) by discriminate.
  specialize (Hd Hne). discriminate.
Qed.

(** A peer that reports length 2 and sends the local chain itself: the
    winner of the description is the local chain, and the program answers
    true. *)
Lemma replace_chain_same_chain :
  ResolveSpec.winner Sample.peer_same Sample.node1_peered = self_chain Sample.node1_peered
  /\ Node5001.replace_chain Sample.peer_same Sample.node1_peered
     = Some (true, Sample.node1_peered).
Proof. split; vm_compute; reflexivity. Qed.

(** The winner of the description is the last reply taken, or the local
    chain when none was. *)
Lemma winner_from_running (replies : list Node5001.peer_reply) :
  forall local w m,
    ResolveSpec.winner_from replies
      (match w with Some c => c | None => local end) m
    = match fst (ResolveSpec.running replies (w, m)) with
      | Some c => c
      | None => local
      end.
Proof.
  induction replies as [|r rest IH]; intros local w m; [reflexivity|].
  cbn [ResolveSpec.winner_from ResolveSpec.running snd].
  destruct (ResolveSpec.takes m r).
  - apply (IH local (Some (snd (ResolveSpec.reported r)))).
  - apply IH.
Qed.

(** When every peer reports the true length of the chain it sends, the
    outcome is the described one. *)
Lemma replace_chain_described_honest (fetch : string -> Node5001.peer_reply)
    (st : Blockchain) :
  (forall node len chain,
     fetch node = Node5001.Ok200 len chain ->
     len = Z.of_nat (List.length chain)) ->
  ResolveSpec.described fetch st (Node5001.replace_chain fetch st).
Proof.
  intro Hhonest. unfold ResolveSpec.described, ResolveSpec.winner.
  rewrite replace_chain_running.
  rewrite (winner_from_running _ (self_chain st) None).
  destruct (running_first_longest (map fetch (self_nodes st)) None
              (Z.of_nat (List.length (self_chain st))))
    as [[Hrun _]|[i [len [chain [Hf Hrun]]]]]; rewrite Hrun; cbn [fst].
  - split; [congruence|reflexivity].
  - destruct Hf as [Hn [_ [Hlt _]]].
    apply nth_error_In in Hn. apply in_map_iff in Hn.
    destruct Hn as [node [Hnode _]].
    apply Hhonest in Hnode. subst len.
    assert (Hne : chain <> self_chain st) by (intro E; subst; lia).
    destruct chain as [|b c]; [cbn in Hlt; lia|].
    split; [reflexivity|congruence].
Qed.

(** C10. [replace_chain] returns, touches neither the pending transactions
    nor the peers, and never installs an empty chain: a true result comes
    with a non-empty chain, a false result with the untouched state, and
    when the scan ends on the empty list the result is false and the state
    untouched. *)
Theorem replace_chain_never_empty (fetch : string -> Node5001.peer_reply)
    (st : Blockchain) :
  exists replaced st',
    Node5001.replace_chain fetch st = Some (replaced, st')
    /\ self_transactions st' = self_transactions st
    /\ self_nodes st' = self_nodes st
    /\ (replaced = true -> self_chain st' <> [])
    /\ (replaced = false -> st' = st)
    /\ (self_chain st' <> self_chain st -> self_chain st' <> [])
    /\ (forall m,
          Node5001.scan fetch (self_nodes st)
            (None, Z.of_nat (List.length (self_chain st)))
          = Some (Some [], m) ->
          replaced = false /\ st' = st).
Proof.
  unfold Node5001.replace_chain.
  rewrite scan_running.
  destruct (ResolveSpec.running _ _) as [[[|b c]|] m].
  - exists false, st. repeat split; try congruence.
  - exists true, (set_chain (b :: c) st). cbn.
    repeat split; try congruence; discriminate.
  - exists false, st. repeat split; try congruence.
Qed.

Lemma replace_chain_never_empty_witness :
  Node5001.scan Sample.peer_empty (self_nodes Sample.node1_peered)
    (None, Z.of_nat (List.length (self_chain Sample.node1_peered)))
  = Some (Some [], 2)
  /\ Node5001.replace_chain Sample.peer_empty Sample.node1_peered
     = Some (false, Sample.node1_peered).
Proof.
  assert (Hs : Node5001.scan Sample.peer_empty (self_nodes Sample.node1_peered)
                 (None, Z.of_nat (List.length (self_chain Sample.node1_peered)))
               = Some (Some [], 2)) by reflexivity.
  split; [exact Hs|].
  destruct (replace_chain_never_empty Sample.peer_empty Sample.node1_peered)
    as [replaced [st' [Hr [_ [_ [_ [_ [_ Hempty]]]]]]]].
  destruct (Hempty 2 Hs) as [-> ->]. exact Hr.
Defined.

(** A peer chain whose only block is numbered 7 passes [is_chain_valid]
    and is installed on a fresh node; the next transaction is then
    announced for block 8 while [len(chain) + 1] is 2. *)
Lemma add_transaction_counterexample :
  Node5001.replace_chain Sample.peer7 Sample.fresh
  = Some (true, Sample.node7)
  /\ self_chain Sample.node7 <> []
  /\ fst (add_transaction "Alice" "Bob" 50 Sample.node7) = 8
  /\ fst (add_transaction "Alice" "Bob" 50 Sample.node7)
     <> Z.of_nat (List.length (self_chain Sample.node7)) + 1.
Proof.
  split; [vm_compute; reflexivity|].
  split; [discriminate|].
  split; [reflexivity|].
  vm_compute. discriminate.
Qed.

(** ** One field of one block changed *)








(** ** The serialization determines the transactions *)














(** * Further properties of the two programs *)

(** ** What a mined block holds and what is left pending *)

Lemma remove_batch_firstn (pending : list Transaction) :
  forall k extra,
    remove_batch (firstn k pending) (pending ++ extra)
    = (skipn k pending ++ extra)%list.
Proof.
  induction pending as [|x pending IH]; intros k extra.
  - destruct k; reflexivity.
  - destruct k as [|k]; [reflexivity|].
    cbn [firstn skipn app remove_batch fold_left remove_first].
    rewrite tx_eqb_refl. apply IH.
Qed.

Lemma link_of_set_transactions (m : list Transaction) (st : Blockchain) :
  link_of (set_transactions m st) = link_of st.
Proof. reflexivity. Qed.

Lemma mine_block_5001_inv (fuel : nat) (now node_address : string)
    (st : Blockchain) (block : Block) (st' : Blockchain) :
  Node5001.mine_block fuel now node_address st = Some (Reply200 block, st') ->
  exists root nonce,
    self_transactions st <> []
    /\ get_merkle_root (firstn 5 (self_transactions st)) = Some root
    /\ proof_of_work fuel (Z.of_nat (List.length (self_chain st)) + 1) now
         (link_of st) root (firstn 5 (self_transactions st)) = Some nonce
    /\ block = mkBlock (Z.of_nat (List.length (self_chain st)) + 1) now
                 nonce (link_of st) root (firstn 5 (self_transactions st))
                 (sha256 (hash_input nonce
                            (Z.of_nat (List.length (self_chain st)) + 1)
                            now (link_of st) root
                            (Json.dumps (firstn 5 (self_transactions st)))))
    /\ st' = mkBlockchain (self_chain st ++ [block])
               (skipn 5 (self_transactions st)
                ++ [mkTransaction "NETWORK" node_address 1])
               (self_nodes st).
Proof.
  unfold Node5001.mine_block.
  destruct (Nat.ltb_spec (List.length (self_transactions st)) 1)
    as [Hlt|Hge]; [discriminate|].
  rewrite add_transaction_state.
  set (st1 := set_transactions _ st).
  fold (link_of st1).
  change (link_of st1) with (link_of st).
  change (self_chain st1) with (self_chain st).
  destruct (get_merkle_root (firstn 5 (self_transactions st)))
    as [root|] eqn:Hroot; [|discriminate].
  destruct (proof_of_work fuel _ now (link_of st) root _)
    as [nonce|] eqn:Hpow; [|discriminate].
  unfold Node5001.create_block.
  rewrite discard_mined_remove_batch.
  unfold st1, new_block.
  cbn [self_chain self_transactions self_nodes set_transactions].
  rewrite remove_batch_firstn.
  intro H. injection H as Hb Hs.
  exists root, nonce.
  split; [intro E; rewrite E in Hge; cbn in Hge; lia|].
  split; [reflexivity|]. split; [exact Hpow|].
  split; [symmetry; exact Hb|].
  rewrite <- Hs, Hb. reflexivity.
Qed.

(** X1. When [/mine_block] of [hadcoin_node_5001.py] answers 200, the
    block holds the first five pending transactions (all of them when
    there are fewer) in their order, is numbered [len(chain) + 1], is
    linked to the last block, carries their Merkle root, the least nonce
    meeting the difficulty and the digest of its fields, which begins with
    three zeros; the chain is the old chain and this block; what is left
    pending is the old pending list without its first five, followed by
    the reward transaction; the peers are untouched. *)
Theorem mine_block_5001_outcome (fuel : nat) (now node_address : string)
    (st : Blockchain) (block : Block) (st' : Blockchain) :
  Node5001.mine_block fuel now node_address st = Some (Reply200 block, st') ->
  self_transactions st <> []
  /\ transactions block = firstn 5 (self_transactions st)
  /\ index block = Z.of_nat (List.length (self_chain st)) + 1
  /\ timestamp block = now
  /\ previous_hash block = link_of st
  /\ get_merkle_root (transactions block) = Some (merkle_root block)
  /\ block_hash block = compute_block_hash block
  /\ prefix3 (block_hash block) = "000"
  /\ 0 <= proof block
  /\ (forall j, 0 <= j < proof block ->
        ~ meets_difficulty (index block) now (previous_hash block)
            (merkle_root block) (transactions block) j)
  /\ self_chain st' = (self_chain st ++ [block])%list
  /\ self_transactions st'
     = (skipn 5 (self_transactions st)
        ++ [mkTransaction "NETWORK" node_address 1])%list
  /\ self_nodes st' = self_nodes st.
Proof.
  intro H. apply mine_block_5001_inv in H.
  destruct H as [root [nonce [Hne [Hroot [Hpow [Hb Hs]]]]]].
  unfold proof_of_work in Hpow.
  destruct (pow_loop_sound _ _ _ _ _ _ _ _ Hpow) as [Hle [Hg Hmin]].
  subst block. cbn [transactions index timestamp previous_hash merkle_root
                    block_hash proof].
  subst st'. cbn [self_chain self_transactions self_nodes].
  repeat split; try assumption; reflexivity.
Qed.

Lemma mine_block_5001_outcome_witness :
  Node5001.mine_block 1 Sample.now1 "node5001" Sample.preloaded
  = Some (Reply200 Sample.block1, Sample.node1)
  /\ transactions Sample.block1 = firstn 5 (self_transactions Sample.preloaded)
  /\ self_transactions Sample.node1
     = (skipn 5 (self_transactions Sample.preloaded)
        ++ [mkTransaction "NETWORK" "node5001" 1])%list.
Proof.
  assert (H : Node5001.mine_block 1 Sample.now1 "node5001" Sample.preloaded
              = Some (Reply200 Sample.block1, Sample.node1))
    by (vm_compute; reflexivity).
  split; [exact H|].
  pose proof (mine_block_5001_outcome _ _ _ _ _ _ H) as T.
  split; [apply T|apply T].
Defined.

Lemma proof_of_work_returns (block_index : Z) (ts prev root : string)
    (txs : list Transaction) (n : Z) (fuel : nat) :
  0 <= n ->
  meets_difficulty block_index ts prev root txs n ->
  (Z.to_nat n < fuel)%nat ->
  exists nonce,
    proof_of_work fuel block_index ts prev root txs = Some nonce
    /\ 0 <= nonce <= n.
Proof.
  intros Hn Hg Hf.
  destruct (pow_loop_complete block_index ts prev root txs (Z.to_nat n) 0)
    as [m [Hm Hrun]].
  - rewrite Z2Nat.id by exact Hn. exact Hg.
  - rewrite Z2Nat.id in Hm by exact Hn.
    exists m. split; [apply Hrun; exact Hf|lia].
Qed.

(** X2. [/mine_block] answers 200 whenever enough transactions are
    pending (one in [hadcoin_node_5001.py], five in [blockchain.py]) and
    some nonce [n >= 0] meets the difficulty for the block to come: more
    than [n] turns of the search are enough, and the nonce of the block is
    at most [n]. *)
Theorem mine_block_returns (fuel : nat) (now node_address : string)
    (st : Blockchain) (n : Z) :
  0 <= n ->
  (forall root,
     get_merkle_root (firstn 5 (self_transactions st)) = Some root ->
     meets_difficulty (Z.of_nat (List.length (self_chain st)) + 1) now
       (link_of st) root (firstn 5 (self_transactions st)) n) ->
  (Z.to_nat n < fuel)%nat ->
  ((1 <= List.length (self_transactions st))%nat ->
   exists block st',
     Node5001.mine_block fuel now node_address st
     = Some (Reply200 block, st')
     /\ 0 <= proof block <= n)
  /\ ((5 <= List.length (self_transactions st))%nat ->
      exists block st',
        BlockchainPy.mine_block fuel now st = Some (Reply200 block, st')
        /\ 0 <= proof block <= n).
Proof.
  intros Hn Hgood Hfuel.
  destruct (get_merkle_root_total (firstn 5 (self_transactions st)))
    as [root Hroot].
  specialize (Hgood root Hroot).
  destruct (proof_of_work_returns _ _ _ _ _ _ _ Hn Hgood Hfuel)
    as [nonce [Hpow Hle]].
  split; intro Hlen.
  - unfold Node5001.mine_block.
    destruct (Nat.ltb_spec (List.length (self_transactions st)) 1)
      as [Hlt|_]; [lia|].
    rewrite add_transaction_state.
    set (st1 := set_transactions _ st).
    fold (link_of st1).
    change (link_of st1) with (link_of st).
    change (self_chain st1) with (self_chain st).
    rewrite Hroot, Hpow.
    unfold Node5001.create_block. rewrite discard_mined_remove_batch.
    eexists. eexists. split; [reflexivity|exact Hle].
  - unfold BlockchainPy.mine_block.
    destruct (Nat.ltb_spec (List.length (self_transactions st)) 5)
      as [Hlt|_]; [lia|].
    set (st1 := set_transactions _ st).
    fold (link_of st1).
    change (link_of st1) with (link_of st).
    change (self_chain st1) with (self_chain st).
    rewrite Hroot, Hpow.
    eexists. eexists. split; [reflexivity|exact Hle].
Qed.

Lemma mine_block_returns_witness :
  exists block st',
    Node5001.mine_block 1 Sample.now1 "node5001" Sample.preloaded
    = Some (Reply200 block, st')
    /\ 0 <= proof block <= 0.
Proof.
  assert (H0 : 0 <= 0) by lia.
  assert (Hg : forall root,
             get_merkle_root (firstn 5 (self_transactions Sample.preloaded))
             = Some root ->
             meets_difficulty
               (Z.of_nat (List.length (self_chain Sample.preloaded)) + 1)
               Sample.now1 (link_of Sample.preloaded) root
               (firstn 5 (self_transactions Sample.preloaded)) 0).
  { intros root Hroot. vm_compute in Hroot. injection Hroot as <-.
    vm_compute. reflexivity. }
  assert (Hf : (Z.to_nat 0 < 1)%nat) by (cbn; lia).
  assert (Hl : (1 <= List.length (self_transactions Sample.preloaded))%nat)
    by (cbn; lia).
  exact (proj1 (mine_block_returns 1 Sample.now1 "node5001"
                  Sample.preloaded 0 H0 Hg Hf) Hl).
Defined.

(** X3. When [/mine_block] of [blockchain.py] answers 200, at least five
    transactions were pending, the block holds exactly the first five in
    their order, is numbered [len(chain) + 1], is linked to the last
    block, carries their Merkle root and the digest of its fields, which
    begins with three zeros; the chain is the old chain and this block,
    and what is left pending is the old pending list without its first
    five. *)
Theorem mine_block_py_outcome (fuel : nat) (now : string)
    (st : Blockchain) (block : Block) (st' : Blockchain) :
  BlockchainPy.mine_block fuel now st = Some (Reply200 block, st') ->
  (5 <= List.length (self_transactions st))%nat
  /\ transactions block = firstn 5 (self_transactions st)
  /\ List.length (transactions block) = 5%nat
  /\ index block = Z.of_nat (List.length (self_chain st)) + 1
  /\ timestamp block = now
  /\ previous_hash block = link_of st
  /\ get_merkle_root (transactions block) = Some (merkle_root block)
  /\ block_hash block = compute_block_hash block
  /\ prefix3 (block_hash block) = "000"
  /\ self_chain st' = (self_chain st ++ [block])%list
  /\ self_transactions st' = skipn 5 (self_transactions st)
  /\ self_nodes st' = self_nodes st.
Proof.
  unfold BlockchainPy.mine_block.
  destruct (Nat.ltb_spec (List.length (self_transactions st)) 5)
    as [Hlt|Hge]; [discriminate|].
  set (st1 := set_transactions _ st).
  fold (link_of st1).
  change (link_of st1) with (link_of st).
  change (self_chain st1) with (self_chain st).
  destruct (get_merkle_root (firstn 5 (self_transactions st)))
    as [root|] eqn:Hroot; [|discriminate].
  destruct (proof_of_work fuel _ now (link_of st) root _)
    as [nonce|] eqn:Hpow; [|discriminate].
  unfold BlockchainPy.create_block, new_block, st1.
  cbn [self_chain self_transactions self_nodes set_transactions set_chain].
  unfold proof_of_work in Hpow.
  destruct (pow_loop_sound _ _ _ _ _ _ _ _ Hpow) as [_ [Hg _]].
  assert (Hfive : List.length (firstn 5 (self_transactions st)) = 5%nat)
    by (apply firstn_length_le; exact Hge).
  remember (firstn 5 (self_transactions st)) as batch eqn:Hbatch.
  intro H. injection H as Hb Hs.
  subst block st'.
  cbn [transactions index timestamp previous_hash merkle_root block_hash
       proof self_chain self_transactions self_nodes].
  repeat split; try assumption; reflexivity.
Qed.

Lemma mine_block_py_outcome_witness :
  BlockchainPy.mine_block 1 Sample.now1 Sample.preloaded
  = Some (Reply200 Sample.block1, Sample.single1)
  /\ List.length (transactions Sample.block1) = 5%nat
  /\ self_transactions Sample.single1
     = skipn 5 (self_transactions Sample.preloaded).
Proof.
  assert (H : BlockchainPy.mine_block 1 Sample.now1 Sample.preloaded
              = Some (Reply200 Sample.block1, Sample.single1))
    by (vm_compute; reflexivity).
  split; [exact H|].
  pose proof (mine_block_py_outcome _ _ _ _ _ H) as T.
  split; apply T.
Defined.

(** ** The routes that only peers may call *)

Lemma from_peer_iff (remote_addr : string) (st : Blockchain) :
  Api5001.from_peer remote_addr st = true
  <-> exists node, In node (self_nodes st)
                   /\ Api5001.host_of node = remote_addr.
Proof.
  unfold Api5001.from_peer, Api5001.peer_ips.
  rewrite existsb_exists. split.
  - intros [h [Hin Heq]]. apply in_map_iff in Hin.
    destruct Hin as [node [Hh Hn]]. apply String.eqb_eq in Heq.
    exists node. split; [exact Hn|congruence].
  - intros [node [Hn Hh]]. exists remote_addr. split.
    + apply in_map_iff. exists node. auto.
    + apply String.eqb_refl.
Qed.

(** X4. A request to [/receive_transaction] or [/sync_mempool] whose source
    address is not the part before the first colon of a registered node is
    answered 403, whatever its body, and leaves the state as it was. *)
Theorem stranger_refused (remote_addr : string) (st : Blockchain) :
  (forall node, In node (self_nodes st) ->
     Api5001.host_of node <> remote_addr) ->
  (forall json_data,
     Api5001.receive_transaction remote_addr json_data st
     = (Api5001.Tx403, st))
  /\ (forall json_data,
        Api5001.sync_mempool remote_addr json_data st
        = Some (Api5001.Sync403, st)).
Proof.
  intro Hno.
  assert (Hf : Api5001.from_peer remote_addr st = false).
  { destruct (Api5001.from_peer remote_addr st) eqn:E; [|reflexivity].
    apply from_peer_iff in E. destruct E as [node [Hin Hh]].
    exfalso. exact (Hno node Hin Hh). }
  split; intro json_data.
  - unfold Api5001.receive_transaction. rewrite Hf. reflexivity.
  - unfold Api5001.sync_mempool. rewrite Hf. reflexivity.
Qed.

Lemma stranger_refused_witness :
  Api5001.receive_transaction "10.0.0.3" (Wire.json_of Sample2.carol)
    Sample.fresh
  = (Api5001.Tx403, Sample.fresh).
Proof.
  assert (H : forall node, In node (self_nodes Sample.fresh) ->
                Api5001.host_of node <> "10.0.0.3").
  { intros node [<-|[]]. vm_compute. discriminate. }
  exact (proj1 (stranger_refused "10.0.0.3" Sample.fresh H)
           (Wire.json_of Sample2.carol)).
Defined.

Lemma host_of_append (host port : string) :
  Wire.has_colon host = false ->
  Api5001.host_of (host ++ String ":" port) = host.
Proof.
  induction host as [|c host IH]; cbn; [reflexivity|].
  destruct (Ascii.eqb c ":"); cbn; [discriminate|].
  intro H. rewrite (IH H). reflexivity.
Qed.

Lemma add_node_In (netloc : string) (st : Blockchain) :
  In netloc (self_nodes (Node5001.add_node netloc st)).
Proof.
  unfold Node5001.add_node.
  destruct (existsb (String.eqb netloc) (self_nodes st)) eqn:E.
  - apply existsb_exists in E. destruct E as [x [Hin Hx]].
    apply String.eqb_eq in Hx. subst. exact Hin.
  - cbn. apply in_or_app. right. left. reflexivity.
Qed.

Lemma add_node_keeps (netloc : string) (st : Blockchain) :
  self_chain (Node5001.add_node netloc st) = self_chain st
  /\ self_transactions (Node5001.add_node netloc st) = self_transactions st
  /\ (forall node, In node (self_nodes st) ->
        In node (self_nodes (Node5001.add_node netloc st))).
Proof.
  unfold Node5001.add_node.
  destruct (existsb (String.eqb netloc) (self_nodes st)); cbn;
    repeat split; auto.
  intros node H. apply in_or_app. left. exact H.
Qed.

(** X5. The gate looks at the host only: once a node is registered as
    [host:port], a complete transaction posted to [/receive_transaction]
    from address [host] is accepted, whatever port the node was registered
    with; it is appended to the pending transactions and nothing else
    changes. *)
Theorem registered_host_accepted (host port : string) (tx : Transaction)
    (st : Blockchain) :
  Wire.has_colon host = false ->
  let st1 := Node5001.add_node (host ++ String ":" port) st in
  exists number,
    Api5001.receive_transaction host (Wire.json_of tx) st1
    = (Api5001.Tx201 number None,
       mkBlockchain (self_chain st) (self_transactions st ++ [tx])
         (self_nodes st1)).
Proof.
  intros Hhost st1.
  assert (Hf : Api5001.from_peer host st1 = true).
  { apply from_peer_iff. exists (host ++ String ":" port). split.
    - apply add_node_In.
    - apply host_of_append. exact Hhost. }
  unfold Api5001.receive_transaction. rewrite Hf.
  cbn [negb Wire.json_of Api5001.required].
  destruct tx as [s r a]. cbn [sender receiver amount].
  destruct (add_transaction s r a st1) as [number st2] eqn:E.
  exists number. f_equal.
  assert (Hs : st2 = snd (add_transaction s r a st1))
    by (rewrite E; reflexivity).
  rewrite Hs, add_transaction_state.
  destruct (add_node_keeps (host ++ String ":" port) st) as [Hc [Ht _]].
  unfold set_transactions. fold st1 in Hc, Ht. rewrite Hc, Ht. reflexivity.
Qed.

Lemma registered_host_accepted_witness :
  exists number,
    Api5001.receive_transaction "10.0.0.9" (Wire.json_of Sample2.carol)
      (Node5001.add_node "10.0.0.9:6000" Sample.preloaded)
    = (Api5001.Tx201 number None,
       mkBlockchain [] (Sample.five ++ [Sample2.carol]) ["10.0.0.9:6000"]).
Proof.
  assert (H : Wire.has_colon "10.0.0.9" = false) by reflexivity.
  exact (registered_host_accepted "10.0.0.9" "6000" Sample2.carol
           Sample.preloaded H).
Defined.

(** ** [/sync_mempool] *)

Lemma remove_first_length (tx : Transaction) (pending : list Transaction) :
  list_contains tx pending = true ->
  S (List.length (remove_first tx pending)) = List.length pending.
Proof.
  induction pending as [|y pending IH]; [discriminate|].
  cbn. destruct (tx_eqb y tx); [reflexivity|].
  cbn. intro H. rewrite (IH H). reflexivity.
Qed.

Lemma subsequence_length (A : Type) (kept l : list A) :
  subsequence kept l -> (List.length kept <= List.length l)%nat.
Proof. induction 1; cbn; lia. Qed.

Lemma sync_loop_counts (mined : list Transaction) : forall pending removed,
  Api5001.sync_loop mined pending removed
  = Some (remove_batch mined pending,
          (removed + (List.length pending
                      - List.length (remove_batch mined pending)))%nat).
Proof.
  induction mined as [|tx mined IH]; intros pending removed.
  - cbn. f_equal. f_equal. lia.
  - cbn [Api5001.sync_loop remove_batch fold_left].
    change (fold_left (fun m t => remove_first t m) mined
              (remove_first tx pending))
      with (remove_batch mined (remove_first tx pending)).
    pose proof (subsequence_length _ _ _
                  (remove_batch_subsequence mined (remove_first tx pending)))
      as Hle.
    destruct (list_contains tx pending) eqn:E.
    + rewrite (list_remove_present _ _ E), IH.
      pose proof (remove_first_length _ _ E). f_equal. f_equal. lia.
    + rewrite (remove_first_absent _ _ E), IH. reflexivity.
Qed.

Lemma sync_mempool_run (remote_addr : string)
    (key : option (list Transaction)) (st : Blockchain) :
  Api5001.from_peer remote_addr st = true ->
  Api5001.sync_mempool remote_addr (Some key) st
  = Some (Api5001.Sync200
            (List.length (self_transactions st)
             - List.length (remove_batch
                              (match key with Some l => l | None => [] end)
                              (self_transactions st)))
            (List.length (remove_batch
                            (match key with Some l => l | None => [] end)
                            (self_transactions st))),
          set_transactions
            (remove_batch (match key with Some l => l | None => [] end)
               (self_transactions st)) st).
Proof.
  intro Hpeer. unfold Api5001.sync_mempool. rewrite Hpeer. cbn [negb].
  rewrite sync_loop_counts. reflexivity.
Qed.

(** X6. [/sync_mempool] called by a registered peer with a list of mined
    transactions removes, for each of them in turn, the first pending
    transaction equal to it when there is one: the pending transactions
    that are left keep their order, each value is left as many times as it
    was pending less the times it was mined, the count [removed] in the
    answer is the number of transactions that left the mempool, and the
    chain and the peers are untouched. A body without the
    ['mined_transactions'] key removes nothing. *)
Theorem sync_mempool_removes (remote_addr : string)
    (key : option (list Transaction)) (st : Blockchain) :
  Api5001.from_peer remote_addr st = true ->
  let mined := match key with Some l => l | None => [] end in
  exists pending removed,
    Api5001.sync_mempool remote_addr (Some key) st
    = Some (Api5001.Sync200 removed (List.length pending),
            mkBlockchain (self_chain st) pending (self_nodes st))
    /\ pending = remove_batch mined (self_transactions st)
    /\ subsequence pending (self_transactions st)
    /\ (forall v, occurrences v pending
                  = (occurrences v (self_transactions st)
                     - occurrences v mined)%nat)
    /\ (removed + List.length pending
        = List.length (self_transactions st))%nat
    /\ (key = None -> pending = self_transactions st /\ removed = 0%nat).
Proof.
  intros Hpeer mined.
  rewrite (sync_mempool_run _ _ _ Hpeer). fold mined.
  pose proof (remove_batch_subsequence mined (self_transactions st)) as Hsub.
  pose proof (subsequence_length _ _ _ Hsub) as Hle.
  eexists. eexists. split; [reflexivity|].
  split; [reflexivity|]. split; [exact Hsub|].
  split; [intro v; apply occurrences_remove_batch|].
  split; [lia|].
  intros ->. subst mined. cbn. split; [reflexivity|lia].
Qed.

Lemma sync_mempool_removes_witness :
  exists pending removed,
    Api5001.sync_mempool "10.0.0.1"
      (Wire.json_of_mined (firstn 2 Sample.five)) Sample2.other
    = Some (Api5001.Sync200 removed (List.length pending),
            mkBlockchain [] pending ["10.0.0.1:5001"])
    /\ pending = skipn 2 Sample.five
    /\ removed = 2%nat.
Proof.
  assert (H : Api5001.from_peer "10.0.0.1" Sample2.other = true)
    by reflexivity.
  destruct (sync_mempool_removes "10.0.0.1" (Some (firstn 2 Sample.five))
              Sample2.other H)
    as [pending [removed [Hrun [Hp [_ [_ [Hcount _]]]]]]].
  exists pending, removed. split; [exact Hrun|].
  assert (Hp' : pending = skipn 2 Sample.five)
    by (rewrite Hp; vm_compute; reflexivity).
  split; [exact Hp'|].
  rewrite Hp' in Hcount. cbn in Hcount. lia.
Defined.

(** ** A transaction and a mined block on their way to a peer *)



(** X8. The reward transaction is not announced. When a node mines a block
    and a peer that has it registered, and had the same pending
    transactions, handles the [/sync_mempool] request posted to it, both
    drop the mined transactions, and the miner is left with one pending
    transaction more than the peer: the reward, at the end. *)
Theorem reward_stays_local (fuel : nat) (now node_address : string)
    (a b : Blockchain) (remote_addr : string) (block : Block)
    (a' : Blockchain) (posts : list (string * list Transaction)) :
  Api5001.mine_block fuel now node_address a
  = Some (Reply200 block, a', posts) ->
  Api5001.from_peer remote_addr b = true ->
  self_transactions b = self_transactions a ->
  map fst posts = self_nodes a
  /\ (forall post, In post posts -> snd post = transactions block)
  /\ exists removed,
       Api5001.sync_mempool remote_addr
         (Wire.json_of_mined (transactions block)) b
       = Some (Api5001.Sync200 removed
                 (List.length (skipn 5 (self_transactions a))),
               mkBlockchain (self_chain b) (skipn 5 (self_transactions a))
                 (self_nodes b))
       /\ self_transactions a'
          = (skipn 5 (self_transactions a)
             ++ [mkTransaction "NETWORK" node_address 1])%list.
Proof.
  unfold Api5001.mine_block.
  destruct (Node5001.mine_block fuel now node_address a)
    as [[[|blk] st']|] eqn:Hmine; try discriminate.
  intros H Hpeer Hsame. injection H as -> -> <-.
  destruct (mine_block_5001_inv _ _ _ _ _ _ Hmine)
    as [root [nonce [_ [_ [_ [Hblk Hst]]]]]].
  assert (Htxs : transactions block = firstn 5 (self_transactions a))
    by (rewrite Hblk; reflexivity).
  rewrite Hst. cbn [self_nodes self_transactions].
  split; [|split].
  - rewrite map_map. cbn [fst]. apply map_id.
  - intros post Hin. apply in_map_iff in Hin.
    destruct Hin as [node [<- _]]. reflexivity.
  - unfold Wire.json_of_mined.
    rewrite (sync_mempool_run _ _ _ Hpeer).
    rewrite Htxs, Hsame.
    assert (Hrb : remove_batch (firstn 5 (self_transactions a))
                    (self_transactions a)
                  = skipn 5 (self_transactions a)).
    { pose proof (remove_batch_firstn (self_transactions a) 5 []) as E.
      rewrite !app_nil_r in E. exact E. }
    rewrite Hrb. eexists. split; reflexivity.
Qed.

Lemma reward_stays_local_witness :
  exists removed,
    Api5001.sync_mempool "10.0.0.1"
      (Wire.json_of_mined (transactions Sample.block1)) Sample2.other
    = Some (Api5001.Sync200 removed 0, mkBlockchain [] [] ["10.0.0.1:5001"])
    /\ self_transactions
         (mkBlockchain [Sample.block1] [Sample.reward] ["10.0.0.2:5002"])
       = [mkTransaction "NETWORK" "node5001" 1].
Proof.
  assert (Hm : Api5001.mine_block 1 Sample.now1 "node5001" Sample2.first
               = Some (Reply200 Sample.block1,
                       mkBlockchain [Sample.block1] [Sample.reward]
                         ["10.0.0.2:5002"],
                       [("10.0.0.2:5002", transactions Sample.block1)]))
    by (vm_compute; reflexivity).
  assert (Hp : Api5001.from_peer "10.0.0.1" Sample2.other = true)
    by reflexivity.
  assert (Hs : self_transactions Sample2.other
               = self_transactions Sample2.first) by reflexivity.
  exact (proj2 (proj2 (reward_stays_local _ _ _ _ _ _ _ _ _ Hm Hp Hs))).
Defined.

(** ** [/connect_node] *)

Lemma add_node_present (netloc : string) (st : Blockchain) :
  In netloc (self_nodes st) -> Node5001.add_node netloc st = st.
Proof.
  intro Hin. unfold Node5001.add_node.
  destruct (existsb (String.eqb netloc) (self_nodes st)) eqn:E;
    [reflexivity|].
  assert (Ht : existsb (String.eqb netloc) (self_nodes st) = true).
  { apply existsb_exists. exists netloc. split; [exact Hin|].
    apply String.eqb_refl. }
  congruence.
Qed.

Lemma add_node_only (netloc : string) (st : Blockchain) (node : string) :
  In node (self_nodes (Node5001.add_node netloc st)) ->
  In node (self_nodes st) \/ node = netloc.
Proof.
  unfold Node5001.add_node.
  destruct (existsb (String.eqb netloc) (self_nodes st)); cbn; [auto|].
  intro H. apply in_app_or in H. destruct H as [H|[H|[]]]; auto.
Qed.

Lemma add_node_NoDup (netloc : string) (st : Blockchain) :
  NoDup (self_nodes st) -> NoDup (self_nodes (Node5001.add_node netloc st)).
Proof.
  intro Hnd. unfold Node5001.add_node.
  destruct (existsb (String.eqb netloc) (self_nodes st)) eqn:E;
    [exact Hnd|].
  cbn. apply NoDup_app; [exact Hnd|repeat constructor; intros []|].
  intros x Hx [Heq|[]]. subst x.
  assert (Ht : existsb (String.eqb netloc) (self_nodes st) = true).
  { apply existsb_exists. exists netloc. split; [exact Hx|].
    apply String.eqb_refl. }
  congruence.
Qed.

Section ConnectAll.

Variable netloc_of : string -> string.


Lemma connect_all_facts (nodes : list string) : forall st,
  self_chain (Wire.register_all netloc_of nodes st) = self_chain st
  /\ self_transactions (Wire.register_all netloc_of nodes st)
     = self_transactions st
  /\ (forall node, In node (self_nodes st) ->
        In node (self_nodes (Wire.register_all netloc_of nodes st)))
  /\ (forall address, In address nodes ->
        In (netloc_of address)
          (self_nodes (Wire.register_all netloc_of nodes st)))
  /\ (forall node,
        In node (self_nodes (Wire.register_all netloc_of nodes st)) ->
        In node (self_nodes st)
        \/ exists address, In address nodes /\ netloc_of address = node)
  /\ (NoDup (self_nodes st) ->
      NoDup (self_nodes (Wire.register_all netloc_of nodes st))).
Proof.
  induction nodes as [|address nodes IH]; intro st.
  - cbn. repeat split; auto. intros address [].
  - cbn [Wire.register_all fold_left].
    change (fold_left
              (fun s a => Node5001.add_node (netloc_of a) s) nodes
              (Node5001.add_node (netloc_of address) st))
      with (Wire.register_all netloc_of nodes
              (Node5001.add_node (netloc_of address) st)).
    destruct (IH (Node5001.add_node (netloc_of address) st))
      as [Hc [Ht [Hold [Hnew [Honly Hnd]]]]].
    destruct (add_node_keeps (netloc_of address) st) as [Hc0 [Ht0 Hold0]].
    split; [congruence|]. split; [congruence|].
    split; [intros node H; apply Hold, Hold0, H|].
    split.
    + intros a [<-|Ha]; [apply Hold, add_node_In|apply Hnew, Ha].
    + split.
      * intros node H. destruct (Honly node H) as [H0|[a [Ha Hn]]].
        -- destruct (add_node_only _ _ _ H0) as [H1|H1]; [left; exact H1|].
           right. exists address. split; [left; reflexivity|congruence].
        -- right. exists a. split; [right; exact Ha|exact Hn].
      * intro H. apply Hnd, add_node_NoDup, H.
Qed.

Lemma connect_all_again (nodes : list string) : forall st,
  (forall address, In address nodes ->
     In (netloc_of address) (self_nodes st)) ->
  Wire.register_all netloc_of nodes st = st.
Proof.
  induction nodes as [|address nodes IH]; intros st H; [reflexivity|].
  cbn [Wire.register_all fold_left].
  change (fold_left (fun s a => Node5001.add_node (netloc_of a) s) nodes
            (Node5001.add_node (netloc_of address) st))
    with (Wire.register_all netloc_of nodes
            (Node5001.add_node (netloc_of address) st)).
  rewrite add_node_present by (apply H; left; reflexivity).
  apply IH. intros a Ha. apply H. right. exact Ha.
Qed.

(** X9. [/connect_node] with a list of addresses answers 201 and registers
    the network location of each of them; no registered node is dropped,
    nothing else is registered, no node is registered twice, and the chain
    and the pending transactions are untouched; sending the same request
    again changes nothing. Without the ['nodes'] key the answer is 400 and
    the state is as it was. *)
Theorem connect_node_registers (nodes : list string) (st : Blockchain) :
  Api5001.connect_node netloc_of (Some None) st
  = Some (Api5001.Connect400, st)
  /\ exists st',
       Api5001.connect_node netloc_of (Some (Some nodes)) st
       = Some (Api5001.Connect201 (self_nodes st'), st')
       /\ self_chain st' = self_chain st
       /\ self_transactions st' = self_transactions st
       /\ (forall node, In node (self_nodes st) -> In node (self_nodes st'))
       /\ (forall address, In address nodes ->
             In (netloc_of address) (self_nodes st'))
       /\ (forall node, In node (self_nodes st') ->
             In node (self_nodes st)
             \/ exists address,
                  In address nodes /\ netloc_of address = node)
       /\ (NoDup (self_nodes st) -> NoDup (self_nodes st'))
       /\ Api5001.connect_node netloc_of (Some (Some nodes)) st'
          = Some (Api5001.Connect201 (self_nodes st'), st').
Proof.
  split; [reflexivity|].
  exists (Wire.register_all netloc_of nodes st).
  destruct (connect_all_facts nodes st)
    as [Hc [Ht [Hold [Hnew [Honly Hnd]]]]].
  split; [reflexivity|].
  repeat (split; [assumption|]).
  unfold Api5001.connect_node.
  change (fold_left (fun s a => Node5001.add_node (netloc_of a) s) nodes
            (Wire.register_all netloc_of nodes st))
    with (Wire.register_all netloc_of nodes
            (Wire.register_all netloc_of nodes st)).
  rewrite (connect_all_again nodes (Wire.register_all netloc_of nodes st) Hnew).
  reflexivity.
Qed.

End ConnectAll.

(** ** What every state of a running node satisfies *)

Lemma mine_block_5001_valid (fuel : nat) (now node_address : string)
    (st : Blockchain) (answer : reply) (st' : Blockchain) :
  Node5001.mine_block fuel now node_address st = Some (answer, st') ->
  is_chain_valid (self_chain st) = Some true ->
  is_chain_valid (self_chain st') = Some true
  /\ self_nodes st' = self_nodes st.
Proof.
  intros Hmine Hv. destruct answer as [|block].
  - unfold Node5001.mine_block in Hmine.
    destruct (List.length (self_transactions st) <? 1)%nat.
    + injection Hmine as <-. auto.
    + destruct (get_merkle_root _); [|discriminate].
      destruct (proof_of_work _ _ _ _ _ _); [|discriminate].
      destruct (Node5001.create_block _ _ _ _ _ _ _) as [[b s1]|];
        discriminate.
  - destruct (mine_block_5001_inv _ _ _ _ _ _ Hmine)
      as [root [nonce [_ [Hroot [Hpow [Hb Hs]]]]]].
    rewrite Hs. cbn [self_chain self_nodes]. split; [|reflexivity].
    apply is_chain_valid_snoc; [exact Hv|rewrite Hb; reflexivity|].
    rewrite Hb.
    exact (mined_block_checks (self_chain st) fuel now (link_of st) _
             root nonce Hroot Hpow).
Qed.

(** A chain that the scan holds at its end was accepted, unless it was
    held from the start. *)
Lemma running_accepted (replies : list Node5001.peer_reply) :
  forall w m c m',
    ResolveSpec.running replies (w, m) = (Some c, m') ->
    w = Some c \/ ResolveSpec.accepts_chain c = true.
Proof.
  induction replies as [|r rest IH]; intros w m c m' H.
  - cbn in H. injection H as -> _. left. reflexivity.
  - cbn [ResolveSpec.running snd] in H.
    destruct (ResolveSpec.takes m r) eqn:Htake.
    + destruct (takes_true _ _ Htake) as [len [c0 [-> [_ Hv]]]].
      cbn [ResolveSpec.reported fst snd] in H.
      destruct (IH _ _ _ _ H) as [E|E]; [|right; exact E].
      injection E as <-. right. exact Hv.
    + exact (IH _ _ _ _ H).
Qed.

Lemma replace_chain_valid (fetch : string -> Node5001.peer_reply)
    (st : Blockchain) (replaced : bool) (st' : Blockchain) :
  Node5001.replace_chain fetch st = Some (replaced, st') ->
  is_chain_valid (self_chain st) = Some true ->
  is_chain_valid (self_chain st') = Some true
  /\ self_nodes st' = self_nodes st.
Proof.
  rewrite replace_chain_running.
  destruct (ResolveSpec.running _ _) as [[[|b c]|] m] eqn:Hrun; cbn [fst];
    intros H Hv; injection H as <- <-; auto.
  cbn [self_chain set_chain self_nodes]. split; [|reflexivity].
  destruct (running_accepted _ _ _ _ _ Hrun) as [E|E]; [discriminate|].
  unfold ResolveSpec.accepts_chain in E.
  destruct (is_chain_valid (b :: c)) as [[|]|]; [reflexivity| |];
    discriminate.
Qed.

(** X10. In every state that a node running [hadcoin_node_5001.py] can
    reach from its start, through any requests to its routes and whatever
    its peers reply, the chain passes [is_chain_valid], so that [/is_valid]
    answers that the chain is valid, and no node is registered twice. *)
Theorem reachable_chain_valid (netloc_of : string -> string)
    (st : Blockchain) :
  Api5001.reachable netloc_of st ->
  is_chain_valid (self_chain st) = Some true
  /\ Api5001.is_valid st = Some true
  /\ NoDup (self_nodes st).
Proof.
  intro Hr.
  assert (H : is_chain_valid (self_chain st) = Some true
              /\ NoDup (self_nodes st)).
  { induction Hr as [|st st' _ [Hv Hnd] Hstep].
    - split; [reflexivity|constructor].
    - destruct Hstep as [st json_data
                        |st remote_addr json_data
                        |st fuel now node_address answer Hrun
                        |st remote_addr json_data answer Hrun
                        |st json_data answer Hrun
                        |st fetch answer Hrun].
      + unfold Api5001.add_transaction.
        destruct (Api5001.required json_data) as [tx|]; [|auto].
        pose proof (add_transaction_state (sender tx) (receiver tx)
                      (amount tx) st) as E.
        destruct (add_transaction _ _ _ st) as [n s]. cbn [fst snd] in *.
        subst s. auto.
      + unfold Api5001.receive_transaction.
        destruct (negb (Api5001.from_peer remote_addr st)); [auto|].
        destruct (Api5001.required json_data) as [tx|]; [|auto].
        pose proof (add_transaction_state (sender tx) (receiver tx)
                      (amount tx) st) as E.
        destruct (add_transaction _ _ _ st) as [n s]. cbn [fst snd] in *.
        subst s. auto.
      + unfold Api5001.mine_block in Hrun.
        destruct (Node5001.mine_block fuel now node_address st)
          as [[r s]|] eqn:Hm; [|discriminate].
        destruct (mine_block_5001_valid _ _ _ _ _ _ Hm Hv) as [Hv' Hn].
        destruct r; injection Hrun as <-; cbn [fst snd];
          rewrite Hn; auto.
      + unfold Api5001.sync_mempool in Hrun.
        destruct (negb (Api5001.from_peer remote_addr st)).
        * injection Hrun as <-. auto.
        * destruct json_data as [key|]; [|discriminate].
          destruct (Api5001.sync_loop _ _ _) as [[p r]|]; [|discriminate].
          injection Hrun as <-. auto.
      + unfold Api5001.connect_node in Hrun.
        destruct json_data as [[nodes|]|]; [| |discriminate];
          injection Hrun as <-; [|auto].
        cbn [snd].
        destruct (connect_all_facts netloc_of nodes st)
          as [Hc [_ [_ [_ [_ Hnd']]]]].
        unfold Wire.register_all in Hc, Hnd'.
        rewrite Hc. auto.
      + unfold Api5001.replace_chain in Hrun.
        destruct (Node5001.replace_chain fetch st) as [[r s]|] eqn:Hm;
          [|discriminate].
        injection Hrun as <-. cbn [snd].
        destruct (replace_chain_valid _ _ _ _ Hm Hv) as [Hv' Hn].
        rewrite Hn. auto. }
  destruct H as [Hv Hnd]. repeat split; assumption.
Qed.

Lemma reachable_chain_valid_witness :
  Api5001.reachable (fun address => address) Sample.node2
  /\ is_chain_valid (self_chain Sample.node2) = Some true.
Proof.
  assert (H1 : Api5001.reachable (fun address => address) Sample.node1).
  { apply (Api5001.reachable_serves _ Api5001.start); [constructor|].
    apply (Api5001.serves_mine_block _ Api5001.start 1%nat Sample.now1
             "node5001" (Reply200 Sample.block1, Sample.node1, [])).
    vm_compute. reflexivity. }
  assert (H2 : Api5001.reachable (fun address => address) Sample.node2).
  { apply (Api5001.reachable_serves _ Sample.node1); [exact H1|].
    apply (Api5001.serves_mine_block _ Sample.node1 1%nat Sample.now2
             "node5001" (Reply200 Sample.block2, Sample.node2, [])).
    vm_compute. reflexivity. }
  split; [exact H2|].
  exact (proj1 (reachable_chain_valid _ _ H2)).
Defined.

Lemma mine_block_py_inv (fuel : nat) (now : string) (st : Blockchain)
    (block : Block) (st' : Blockchain) :
  BlockchainPy.mine_block fuel now st = Some (Reply200 block, st') ->
  exists root nonce,
    (5 <= List.length (self_transactions st))%nat
    /\ get_merkle_root (firstn 5 (self_transactions st)) = Some root
    /\ proof_of_work fuel (Z.of_nat (List.length (self_chain st)) + 1) now
         (link_of st) root (firstn 5 (self_transactions st)) = Some nonce
    /\ block = new_block (self_chain st) nonce (link_of st) root
                 (firstn 5 (self_transactions st)) now
                 (sha256 (hash_input nonce
                            (Z.of_nat (List.length (self_chain st)) + 1)
                            now (link_of st) root
                            (Json.dumps (firstn 5 (self_transactions st)))))
    /\ st' = mkBlockchain (self_chain st ++ [block])
               (skipn 5 (self_transactions st)) (self_nodes st).
Proof.
  unfold BlockchainPy.mine_block.
  destruct (Nat.ltb_spec (List.length (self_transactions st)) 5)
    as [Hlt|Hge]; [discriminate|].
  set (st1 := set_transactions _ st).
  fold (link_of st1).
  change (link_of st1) with (link_of st).
  change (self_chain st1) with (self_chain st).
  destruct (get_merkle_root (firstn 5 (self_transactions st)))
    as [root|] eqn:Hroot; [|discriminate].
  destruct (proof_of_work fuel _ now (link_of st) root _)
    as [nonce|] eqn:Hpow; [|discriminate].
  unfold BlockchainPy.create_block, st1.
  cbn [self_chain self_transactions self_nodes set_transactions set_chain].
  remember (firstn 5 (self_transactions st)) as batch eqn:Hbatch.
  intro H. injection H as Hb Hs.
  exists root, nonce. repeat split; try assumption; try reflexivity.
  - symmetry. exact Hb.
  - rewrite <- Hs, Hb. reflexivity.
Qed.

(** X11. In every state that [blockchain.py] can reach from its start, the
    chain passes [is_chain_valid], every block is numbered by its
    position and holds exactly five transactions, and the number that
    [create_transaction] returns is [len(chain) + 1]. *)
Theorem reachable_py_chain (st : Blockchain) :
  ApiPy.reachable st ->
  is_chain_valid (self_chain st) = Some true
  /\ well_indexed (self_chain st)
  /\ Forall (fun block => List.length (transactions block) = 5%nat)
       (self_chain st)
  /\ (forall s r a,
        fst (create_transaction s r a st)
        = Z.of_nat (List.length (self_chain st)) + 1).
Proof.
  intro Hr.
  assert (H : is_chain_valid (self_chain st) = Some true
              /\ well_indexed (self_chain st)
              /\ Forall (fun block =>
                           List.length (transactions block) = 5%nat)
                   (self_chain st)).
  { induction Hr as [|st st' _ [Hv [Hw Hf]] Hstep].
    - repeat split; constructor.
    - destruct Hstep as [st json_data|st fuel now answer Hrun].
      + unfold ApiPy.add_transaction.
        destruct (Api5001.required json_data) as [tx|]; [|auto].
        cbn [snd]. unfold create_transaction.
        rewrite add_transaction_state. auto.
      + destruct answer as [[|block] s]; cbn [snd].
        * unfold BlockchainPy.mine_block in Hrun.
          destruct (List.length (self_transactions st) <? 5)%nat.
          -- injection Hrun as <-. auto.
          -- destruct (get_merkle_root _); [|discriminate].
             destruct (proof_of_work _ _ _ _ _ _); discriminate.
        * destruct (mine_block_py_inv _ _ _ _ _ Hrun)
            as [root [nonce [Hge [Hroot [Hpow [Hb Hs]]]]]].
          rewrite Hs. cbn [self_chain]. split; [|split].
          -- apply is_chain_valid_snoc; [exact Hv|rewrite Hb; reflexivity|].
             rewrite Hb.
             exact (mined_block_checks (self_chain st) fuel now (link_of st)
                      _ root nonce Hroot Hpow).
          -- apply well_indexed_snoc; [exact Hw|rewrite Hb; reflexivity].
          -- apply Forall_app. split; [exact Hf|].
             constructor; [|constructor]. rewrite Hb.
             cbn [new_block transactions].
             apply firstn_length_le. exact Hge. }
  destruct H as [Hv [Hw Hf]].
  split; [exact Hv|]. split; [exact Hw|]. split; [exact Hf|].
  intros s r a. unfold create_transaction, add_transaction, get_previous_block.
  cbn [self_chain set_transactions].
  unfold well_indexed in Hw.
  destruct (self_chain st) as [|b rest]; [reflexivity|].
  cbn [fst]. rewrite (indexed_from_last rest 1 b Hw). cbn [List.length]. lia.
Qed.

Lemma reachable_py_chain_witness :
  ApiPy.reachable Sample.single1
  /\ fst (create_transaction "Carol" "Dave" 7 Sample.single1) = 2.
Proof.
  assert (H : ApiPy.reachable Sample.single1).
  { apply (ApiPy.reachable_serves ApiPy.start); [constructor|].
    apply (ApiPy.serves_mine_block ApiPy.start 1%nat Sample.now1
             (Reply200 Sample.block1, Sample.single1)).
    vm_compute. reflexivity. }
  split; [exact H|].
  exact (proj2 (proj2 (proj2 (reachable_py_chain _ H))) "Carol" "Dave" 7).
Defined.

(** ** What the validator looks at *)

Lemma mined_any_index_checks (block_index : Z) (fuel : nat)
    (ts prev : string) (batch : list Transaction) (root : string)
    (nonce : Z) :
  get_merkle_root batch = Some root ->
  proof_of_work fuel block_index ts prev root batch = Some nonce ->
  check_commitments
    (mkBlock block_index ts nonce prev root batch
       (sha256 (hash_input nonce block_index ts prev root
                  (Json.dumps batch))))
  = Some true.
Proof.
  intros Hroot Hpow. apply check_commitments_true.
  unfold block_ok, compute_block_hash. cbn.
  split; [exact Hroot|]. split; [|reflexivity].
  unfold proof_of_work in Hpow.
  destruct (pow_loop_sound _ _ _ _ batch _ _ _ Hpow) as [_ [Hg _]].
  exact Hg.
Qed.

(** X12. [is_chain_valid] never compares the [index] of a block with its
    place: a block mined for any number whatever, linked to the end of a
    valid chain (or to the sentinel after an empty one), extends it to a
    chain that is accepted. *)
Theorem index_not_checked (block_index : Z) (fuel : nat) (ts : string)
    (batch : list Transaction) (root : string) (nonce : Z)
    (st : Blockchain) :
  is_chain_valid (self_chain st) = Some true ->
  get_merkle_root batch = Some root ->
  proof_of_work fuel block_index ts (link_of st) root batch = Some nonce ->
  is_chain_valid
    (self_chain st
     ++ [mkBlock block_index ts nonce (link_of st) root batch
           (sha256 (hash_input nonce block_index ts (link_of st) root
                      (Json.dumps batch)))])
  = Some true.
Proof.
  intros Hv Hroot Hpow.
  apply is_chain_valid_snoc; [exact Hv|reflexivity|].
  eapply mined_any_index_checks; eassumption.
Qed.

Lemma index_not_checked_witness :
  is_chain_valid [Sample2.block7] = Some true /\ index Sample2.block7 = 7.
Proof.
  assert (Hv : is_chain_valid (self_chain init) = Some true) by reflexivity.
  assert (Hroot : get_merkle_root [Sample.mallory]
                  = Some (Json.dumps_tx Sample.mallory)) by reflexivity.
  assert (Hpow : proof_of_work 1 7 Sample2.now7 (link_of init)
                   (Json.dumps_tx Sample.mallory) [Sample.mallory]
                 = Some 0) by (vm_compute; reflexivity).
  pose proof (index_not_checked 7 1 Sample2.now7 [Sample.mallory]
                (Json.dumps_tx Sample.mallory) 0 init Hv Hroot Hpow) as H.
  split; [|reflexivity].
  assert (E : Sample2.block7
              = mkBlock 7 Sample2.now7 0 (link_of init)
                  (Json.dumps_tx Sample.mallory) [Sample.mallory]
                  (sha256 (hash_input 0 7 Sample2.now7 (link_of init)
                             (Json.dumps_tx Sample.mallory)
                             (Json.dumps [Sample.mallory]))))
    by (vm_compute; reflexivity).
  rewrite E. exact H.
Defined.

(** X13. A chain cut after any of its blocks stays valid: what
    [is_chain_valid] accepts, it accepts up to every length. *)
Theorem valid_prefix (chain rest : list Block) :
  is_chain_valid (chain ++ rest) = Some true ->
  is_chain_valid chain = Some true.
Proof.
  destruct chain as [|b chain]; [reflexivity|].
  cbn [app]. intro Hv.
  apply is_chain_valid_cons_iff in Hv.
  apply is_chain_valid_cons_iff.
  destruct Hv as [H0 [Hok Hlk]].
  assert (Hin : forall i x, nth_error (b :: chain) i = Some x ->
                  nth_error (b :: chain ++ rest) i = Some x).
  { intros i x Hx.
    change (b :: chain ++ rest)%list with ((b :: chain) ++ rest)%list.
    rewrite nth_error_app1; [exact Hx|].
    apply nth_error_Some. congruence. }
  split; [|split].
  - intros x Hx. apply H0. apply Hin. exact Hx.
  - intros i x Hx. apply (Hok i). apply Hin. exact Hx.
  - intros i p x Hp Hx. apply (Hlk i); apply Hin; assumption.
Qed.

Lemma valid_prefix_witness :
  is_chain_valid ([Sample.block1] ++ [Sample.block2]) = Some true
  /\ is_chain_valid [Sample.block1] = Some true.
Proof.
  assert (H : is_chain_valid ([Sample.block1] ++ [Sample.block2])
              = Some true) by (vm_compute; reflexivity).
  split; [exact H|].
  exact (valid_prefix [Sample.block1] [Sample.block2] H).
Defined.

(** ** The Merkle root does not tell some lists apart *)

Lemma merkle_loop_enough (fuel fuel' : nat) (l : list string) :
  l <> [] ->
  (List.length l <= fuel)%nat -> (List.length l <= fuel')%nat ->
  merkle_loop fuel l = merkle_loop fuel' l.
Proof.
  intros Hne H1 H2.
  destruct (merkle_loop_reduces fuel l Hne H1) as [r1 [E1 R1]].
  destruct (merkle_loop_reduces fuel' l Hne H2) as [r2 [E2 R2]].
  rewrite E1, E2. f_equal. exact (reduces_functional _ _ _ R1 R2).
Qed.

(** X14. Two different lists can have one Merkle root: when an odd number
    of transactions, three or more, ends with [tx], the list with [tx]
    once more at its end has the same root. *)
Theorem merkle_root_last_doubled (txs : list Transaction)
    (tx : Transaction) :
  txs <> [] ->
  Nat.even (List.length txs) = true ->
  get_merkle_root (txs ++ [tx]) = get_merkle_root (txs ++ [tx; tx])
  /\ (txs ++ [tx])%list <> (txs ++ [tx; tx])%list.
Proof.
  intros Hne Hev. split.
  - assert (Hlen : (2 <= List.length txs)%nat).
    { destruct txs as [|a [|b txs]]; [congruence|discriminate|cbn; lia]. }
    unfold get_merkle_root.
    destruct (txs ++ [tx])%list as [|a1 l1] eqn:E1;
      [destruct txs; discriminate|]. rewrite <- E1.
    destruct (txs ++ [tx; tx])%list as [|a2 l2] eqn:E2;
      [destruct txs; discriminate|]. rewrite <- E2.
    clear E1 E2 a1 l1 a2 l2.
    rewrite !map_app, !length_app. cbn [map List.length].
    set (leaves := map Json.dumps_tx txs).
    set (d := Json.dumps_tx tx).
    assert (Hl : List.length leaves = List.length txs)
      by apply length_map.
    replace (List.length txs + 1)%nat with (S (List.length txs)) by lia.
    replace (List.length txs + 2)%nat with (S (S (List.length txs))) by lia.
    rewrite (merkle_loop_step _ (leaves ++ [d]))
      by (rewrite length_app; cbn; lia).
    rewrite (merkle_loop_step _ (leaves ++ [d; d]))
      by (rewrite length_app; cbn; lia).
    assert (Hnext : MerkleSpec.next_level (leaves ++ [d])
                    = MerkleSpec.next_level (leaves ++ [d; d])).
    { unfold MerkleSpec.next_level, MerkleSpec.make_even.
      rewrite !length_app. cbn [List.length]. rewrite Hl.
      replace (List.length txs + 1)%nat with (S (List.length txs)) by lia.
      replace (List.length txs + 2)%nat
        with (S (S (List.length txs))) by lia.
      rewrite Nat.odd_succ, Hev.
      rewrite Nat.odd_succ, Nat.even_succ.
      unfold Nat.odd. rewrite Hev. cbn [negb].
      rewrite last_last, <- app_assoc. reflexivity. }
    rewrite Hnext.
    pose proof (next_level_length (leaves ++ [d; d])) as Hn.
    rewrite length_app in Hn. cbn [List.length] in Hn.
    specialize (Hn ltac:(lia)).
    assert (Hhalf : (List.length (MerkleSpec.next_level (leaves ++ [d; d]))
                     <= List.length txs)%nat).
    { unfold MerkleSpec.next_level, MerkleSpec.make_even.
      rewrite length_app. cbn [List.length]. rewrite Hl.
      replace (List.length txs + 2)%nat
        with (S (S (List.length txs))) by lia.
      rewrite Nat.odd_succ, Nat.even_succ. unfold Nat.odd. rewrite Hev.
      cbn [negb]. rewrite pair_up_length, length_app.
      cbn [List.length]. rewrite Hl.
      replace (List.length txs + 2)%nat
        with (S (S (List.length txs))) by lia.
      cbn [Nat.div2].
      pose proof (Nat.div2_odd (List.length txs)) as Hd.
      destruct (Nat.odd (List.length txs)); cbn in Hd; lia. }
    apply merkle_loop_enough.
    + intro E. rewrite E in Hn. cbn in Hn. lia.
    + exact Hhalf.
    + lia.
  - intro E. apply (f_equal (@List.length Transaction)) in E.
    rewrite !length_app in E. cbn in E. lia.
Qed.

Lemma merkle_root_last_doubled_witness :
  get_merkle_root (firstn 2 Sample.five ++ [Sample2.carol])
  = get_merkle_root (firstn 2 Sample.five ++ [Sample2.carol; Sample2.carol]).
Proof.
  assert (H1 : firstn 2 Sample.five <> []) by discriminate.
  assert (H2 : Nat.even (List.length (firstn 2 Sample.five)) = true)
    by reflexivity.
  exact (proj1 (merkle_root_last_doubled (firstn 2 Sample.five)
                  Sample2.carol H1 H2)).
Defined.

(** ** [replace_chain] and the length that a peer reports *)

Lemma running_same_reply (len : Z) (c : list Block) (nodes : list string) :
  ResolveSpec.running (map (fun _ => Node5001.Ok200 len c) nodes)
    (Some c, len)
  = (Some c, len).
Proof.
  induction nodes as [|node nodes IH]; [reflexivity|].
  cbn [map ResolveSpec.running snd ResolveSpec.takes].
  rewrite Z.gtb_ltb, Z.ltb_irrefl. cbn [andb]. exact IH.
Qed.

(** X15. [replace_chain] compares the reported length only. When the
    registered peers reply with a valid chain that is not empty and report
    a length above the local one, that chain is installed, whatever its
    real length: it may be shorter than the chain it replaces. *)
Theorem reported_length_trusted (c : list Block) (st : Blockchain) :
  self_nodes st <> [] ->
  c <> [] ->
  is_chain_valid c = Some true ->
  Node5001.replace_chain
    (fun _ => Node5001.Ok200 (Z.of_nat (List.length (self_chain st)) + 1) c)
    st
  = Some (true, set_chain c st).
Proof.
  intros Hnodes Hc Hv. rewrite replace_chain_running.
  destruct (self_nodes st) as [|node nodes]; [congruence|].
  cbn [map ResolveSpec.running snd ResolveSpec.takes].
  unfold ResolveSpec.accepts_chain. rewrite Hv.
  assert (Hgt : (Z.of_nat (List.length (self_chain st)) + 1
                 >? Z.of_nat (List.length (self_chain st))) = true)
    by (rewrite Z.gtb_ltb; apply Z.ltb_lt; lia).
  rewrite Hgt.
  cbn [andb ResolveSpec.reported fst snd].
  rewrite running_same_reply. cbn [fst].
  destruct c; [congruence|reflexivity].
Qed.

Lemma reported_length_trusted_witness :
  Node5001.replace_chain (fun _ => Node5001.Ok200 3 [Sample.block1])
    Sample2.node2_peered
  = Some (true, set_chain [Sample.block1] Sample2.node2_peered)
  /\ (List.length [Sample.block1]
      < List.length (self_chain Sample2.node2_peered))%nat.
Proof.
  assert (H1 : self_nodes Sample2.node2_peered <> []) by discriminate.
  assert (H2 : [Sample.block1] <> []) by discriminate.
  assert (H3 : is_chain_valid [Sample.block1] = Some true)
    by (vm_compute; reflexivity).
  split; [|cbn; lia].
  exact (reported_length_trusted [Sample.block1] Sample2.node2_peered
           H1 H2 H3).
Defined.

Lemma In_map_nth_error (A B : Type) (f : A -> B) (l : list A) (x : A) :
  In x l -> exists j, nth_error (map f l) j = Some (f x).
Proof.
  intro Hin. apply In_nth_error in Hin. destruct Hin as [j Hj].
  exists j. apply map_nth_error. exact Hj.
Qed.

(** X16. Among nodes that run this program, [replace_chain] finds a
    longest chain. When every peer that answers sends the chain of a state
    whose chain is valid, as [/get_chain] does, the local chain afterwards
    is no shorter than before and no shorter than the chain of any peer
    that answered; the result is true exactly when it grew, and then the
    new chain is the chain of one of those peers; the pending transactions
    and the peers are untouched. *)
Theorem replace_chain_longest (fetch : string -> Node5001.peer_reply)
    (st : Blockchain) :
  (forall node, In node (self_nodes st) ->
     fetch node = Node5001.ConnectionError
     \/ fetch node = Node5001.NotOk
     \/ exists peer_state,
          fetch node = Api5001.get_chain peer_state
          /\ is_chain_valid (self_chain peer_state) = Some true) ->
  exists replaced st',
    Node5001.replace_chain fetch st = Some (replaced, st')
    /\ self_transactions st' = self_transactions st
    /\ self_nodes st' = self_nodes st
    /\ (List.length (self_chain st) <= List.length (self_chain st'))%nat
    /\ (forall node peer_state,
          In node (self_nodes st) ->
          fetch node = Api5001.get_chain peer_state ->
          (List.length (self_chain peer_state)
           <= List.length (self_chain st'))%nat)
    /\ (replaced = true
        <-> (List.length (self_chain st)
             < List.length (self_chain st'))%nat)
    /\ (replaced = false -> st' = st)
    /\ (replaced = true ->
        exists node peer_state,
          In node (self_nodes st)
          /\ fetch node = Api5001.get_chain peer_state
          /\ self_chain st' = self_chain peer_state).
Proof.
  intro Hpeers. rewrite replace_chain_running.
  set (replies := map fetch (self_nodes st)).
  set (local := Z.of_nat (List.length (self_chain st))).
  assert (Hbound : forall bound,
             (forall j l c, nth_error replies j = Some (Node5001.Ok200 l c) ->
                ResolveSpec.accepts_chain c = true -> (l <= bound)%Z) ->
             forall node peer_state,
               In node (self_nodes st) ->
               fetch node = Api5001.get_chain peer_state ->
               (Z.of_nat (List.length (self_chain peer_state)) <= bound)%Z).
  { intros bound Hall node peer_state Hin Hf.
    destruct (In_map_nth_error _ _ fetch _ _ Hin) as [j Hj].
    fold replies in Hj. rewrite Hf in Hj. unfold Api5001.get_chain in Hj.
    apply (Hall _ _ _ Hj).
    destruct (Hpeers node Hin) as [E|[E|[ps [E Hv]]]];
      rewrite Hf in E; try discriminate.
    unfold Api5001.get_chain in E. injection E as _ Hc.
    unfold ResolveSpec.accepts_chain. rewrite Hc, Hv. reflexivity. }
  destruct (running_first_longest replies None local)
    as [[Hrun Hnone]|[i [len [c [Hf Hrun]]]]]; rewrite Hrun; cbn [fst].
  - exists false, st. split; [reflexivity|].
    split; [reflexivity|]. split; [reflexivity|]. split; [lia|].
    split.
    + intros node peer_state Hin Hfn.
      pose proof (Hbound local Hnone node peer_state Hin Hfn).
      unfold local in *. lia.
    + split; [split; [discriminate|lia]|].
      split; [reflexivity|discriminate].
  - destruct Hf as [Hn [Hacc [Hlt Hall]]].
    assert (Hin : exists node, In node (self_nodes st)
                               /\ fetch node = Node5001.Ok200 len c).
    { apply nth_error_In in Hn. apply in_map_iff in Hn.
      destruct Hn as [node [E Hin]]. exists node. auto. }
    destruct Hin as [node [Hin Hfn]].
    destruct (Hpeers node Hin) as [E|[E|[ps [E Hv]]]];
      rewrite Hfn in E; try discriminate.
    unfold Api5001.get_chain in E. injection E as Hlen Hc.
    assert (Hlong : (List.length (self_chain st) < List.length c)%nat)
      by (rewrite Hc; unfold local in Hlt; lia).
    destruct c as [|b c]; [cbn in Hlong; lia|].
    exists true, (set_chain (b :: c) st).
    cbn [self_chain self_transactions self_nodes set_chain].
    split; [reflexivity|]. split; [reflexivity|]. split; [reflexivity|].
    split; [lia|]. split.
    + intros node' peer_state Hin' Hfn'.
      assert (Hle : forall j l c0,
                 nth_error replies j = Some (Node5001.Ok200 l c0) ->
                 ResolveSpec.accepts_chain c0 = true -> (l <= len)%Z).
      { intros j l c0 Hj Hc0. apply (Hall j l c0 Hj Hc0). }
      pose proof (Hbound len Hle node' peer_state Hin' Hfn').
      rewrite Hc. lia.
    + split; [split; [intros _; exact Hlong|reflexivity]|].
      split; [discriminate|].
      intros _. exists node, ps. rewrite Hfn. unfold Api5001.get_chain.
      rewrite Hlen, Hc. auto.
Qed.

Lemma replace_chain_longest_witness :
  exists replaced st',
    Node5001.replace_chain (fun _ => Api5001.get_chain Sample.node2)
      Sample2.first
    = Some (replaced, st')
    /\ (List.length (self_chain Sample.node2)
        <= List.length (self_chain st'))%nat.
Proof.
  assert (H : forall node, In node (self_nodes Sample2.first) ->
                (fun _ => Api5001.get_chain Sample.node2) node
                = Node5001.ConnectionError
                \/ (fun _ => Api5001.get_chain Sample.node2) node
                   = Node5001.NotOk
                \/ exists peer_state,
                     (fun _ => Api5001.get_chain Sample.node2) node
                     = Api5001.get_chain peer_state
                     /\ is_chain_valid (self_chain peer_state) = Some true).
  { intros node _. right. right. exists Sample.node2.
    split; [reflexivity|vm_compute; reflexivity]. }
  destruct (replace_chain_longest _ Sample2.first H)
    as [replaced [st' [Hrun [_ [_ [_ [Hmax _]]]]]]].
  exists replaced, st'. split; [exact Hrun|].
  apply (Hmax "10.0.0.2:5002" Sample.node2); [left|]; reflexivity.
Defined.

(** ** A changed block *)



(** * The earlier node *)

(** The digest is only ever computed on closed strings. *)
Arguments sha256 : simpl never.
Arguments Lab3.hash : simpl never.

Example lab3_hash_genesis :
  Lab3.hash Lab3.genesis
  = "e42f51a17ec111559db2919e99ce64bb4b928997521464164cba5e7d2f602551"
  /\ Lab3.hash Lab3.second
     = "1eb1d7b8e37deecdfced82ac1ae362d1c274ab450c6010c388fbba8429198daf"
  /\ Lab3.is_chain_valid [Lab3.genesis; Lab3.second] = Some true.
Proof. repeat split; vm_compute; reflexivity. Qed.

Lemma lab3_valid_loop_links (chain : list Lab3.Block) (fuel : nat) :
  forall previous_block i,
    (List.length chain - i <= fuel)%nat ->
    Lab3.valid_loop fuel chain previous_block i
    = Some (Lab3.links previous_block (skipn i chain)).
Proof.
  induction fuel as [|fuel IH]; intros previous_block i Hf.
  - cbn [Lab3.valid_loop].
    destruct (Nat.ltb_spec i (List.length chain)) as [Hlt|Hge]; [lia|].
    rewrite skipn_all2 by lia. reflexivity.
  - cbn [Lab3.valid_loop].
    destruct (Nat.ltb_spec i (List.length chain)) as [Hlt|Hge].
    + destruct (nth_error chain i) as [block|] eqn:Hnth.
      * rewrite (skipn_nth_error _ _ _ _ Hnth). cbn [Lab3.links].
        destruct (String.eqb (Lab3.previous_hash block)
                    (Lab3.hash previous_block)); [|reflexivity].
        cbn [negb andb].
        destruct (String.eqb _ "0000"); [|reflexivity].
        cbn [negb andb].
        replace (i + 1)%nat with (S i) by lia.
        apply IH. lia.
      * apply nth_error_None in Hnth. lia.
    + rewrite skipn_all2 by lia. reflexivity.
Qed.

Lemma lab3_is_chain_valid_cons (b : Lab3.Block) (rest : list Lab3.Block) :
  Lab3.is_chain_valid (b :: rest) = Some (Lab3.links b rest).
Proof.
  unfold Lab3.is_chain_valid. cbn [nth_error].
  rewrite lab3_valid_loop_links by (cbn [List.length]; lia).
  reflexivity.
Qed.

Lemma lab3_links_snoc (rest : list Lab3.Block) : forall p b,
  Lab3.links p (rest ++ [b])
  = Lab3.links p rest
    && (String.eqb (Lab3.previous_hash b) (Lab3.hash (last rest p))
        && String.eqb
             (Lab3.prefix4
                (sha256 (Lab3.proof_input (Lab3.proof b)
                           (Lab3.proof (last rest p))))) "0000").
Proof.
  induction rest as [|x rest IH]; intros p b.
  - cbn [app Lab3.links last]. rewrite andb_true_r. reflexivity.
  - cbn [app Lab3.links]. rewrite IH, last_cons.
    rewrite <- !andb_assoc. reflexivity.
Qed.

(** X17. The validator of the earlier node reads only the proof and the
    previous hash of the last block: a valid chain stays valid when the
    number, the timestamp and the transactions of its last block are
    replaced by anything. *)
Theorem lab3_last_block_unprotected (chain : list Lab3.Block)
    (b : Lab3.Block) (number : Z) (ts : string)
    (txs : list Transaction) :
  Lab3.is_chain_valid (chain ++ [b]) = Some true ->
  Lab3.is_chain_valid
    (chain ++ [Lab3.mkBlock number ts (Lab3.proof b) (Lab3.previous_hash b)
                 txs])
  = Some true.
Proof.
  destruct chain as [|c0 rest]; cbn [app];
    rewrite !lab3_is_chain_valid_cons; [reflexivity|].
  rewrite !lab3_links_snoc. exact (fun H => H).
Qed.

Lemma lab3_last_block_unprotected_witness :
  Lab3.is_chain_valid ([Lab3.genesis] ++ [Lab3.second]) = Some true
  /\ Lab3.is_chain_valid
       ([Lab3.genesis]
        ++ [Lab3.mkBlock 2 "2026-11-04 09:01:00.000002" 533
              (Lab3.previous_hash Lab3.second)
              [mkTransaction "node5001" "Mallory" 1000]])
     = Some true.
Proof.
  assert (H : Lab3.is_chain_valid ([Lab3.genesis] ++ [Lab3.second])
              = Some true) by (vm_compute; reflexivity).
  split; [exact H|].
  exact (lab3_last_block_unprotected [Lab3.genesis] Lab3.second 2
           "2026-11-04 09:01:00.000002"
           [mkTransaction "node5001" "Mallory" 1000] H).
Defined.

Lemma lab3_pow_loop_sound (fuel : nat) : forall previous_proof start nonce,
  Lab3.pow_loop fuel previous_proof start = Some nonce ->
  start <= nonce
  /\ Lab3.prefix4 (sha256 (Lab3.proof_input nonce previous_proof)) = "0000".
Proof.
  induction fuel as [|fuel IH]; intros previous_proof start nonce H;
    [discriminate|].
  cbn [Lab3.pow_loop] in H.
  destruct (String.eqb_spec
              (Lab3.prefix4 (sha256 (Lab3.proof_input start previous_proof)))
              "0000") as [E|_].
  - injection H as <-. split; [lia|exact E].
  - destruct (IH _ _ _ H) as [Hle Hg]. split; [lia|exact Hg].
Qed.

Lemma lab3_last_item_snoc (A : Type) (l : list A) (x : A) :
  last_item (l ++ [x]) = Some x.
Proof.
  rewrite (last_item_last A (l ++ [x]) x) by (destruct l; discriminate).
  rewrite last_last. reflexivity.
Qed.

Lemma lab3_mine_block_inv (fuel : nat) (now node_address : string)
    (st : Lab3.Blockchain) (block : Lab3.Block) (st' : Lab3.Blockchain) :
  Lab3.mine_block fuel now node_address st = Some (block, st') ->
  exists previous_block nonce,
    last_item (Lab3.self_chain st) = Some previous_block
    /\ Lab3.proof_of_work fuel (Lab3.proof previous_block) = Some nonce
    /\ block = Lab3.mkBlock
                 (Z.of_nat (List.length (Lab3.self_chain st)) + 1) now nonce
                 (Lab3.hash previous_block)
                 (Lab3.self_transactions st
                  ++ [mkTransaction node_address "Richard" 1])
    /\ st' = Lab3.mkBlockchain (Lab3.self_chain st ++ [block]) []
               (Lab3.self_nodes st).
Proof.
  unfold Lab3.mine_block, Lab3.add_transaction, Lab3.get_previous_block.
  cbn [Lab3.self_chain].
  destruct (last_item (Lab3.self_chain st)) as [previous_block|] eqn:Hlast;
    [|discriminate].
  destruct (Lab3.proof_of_work fuel (Lab3.proof previous_block))
    as [nonce|] eqn:Hpow; [|discriminate].
  unfold Lab3.create_block.
  cbn [Lab3.self_chain Lab3.self_transactions Lab3.self_nodes].
  intro H. injection H as Hb Hs.
  exists previous_block, nonce.
  split; [reflexivity|]. split; [exact Hpow|].
  split; [symmetry; exact Hb|]. rewrite <- Hs, Hb. reflexivity.
Qed.

(** X18. When [/mine_block] of the earlier node returns, the block holds
    all the transactions that were pending, in their order, followed by
    the reward; it is numbered [len(chain) + 1], carries the hash of the
    last block and a proof that passes the proof check against the proof
    of the last block; the chain is the old chain and this block, and no
    transaction is left pending. *)
Theorem lab3_mine_block_outcome (fuel : nat) (now node_address : string)
    (st : Lab3.Blockchain) (block : Lab3.Block) (st' : Lab3.Blockchain) :
  Lab3.mine_block fuel now node_address st = Some (block, st') ->
  exists previous_block,
    last_item (Lab3.self_chain st) = Some previous_block
    /\ Lab3.transactions block
       = (Lab3.self_transactions st
          ++ [mkTransaction node_address "Richard" 1])%list
    /\ Lab3.index block = Z.of_nat (List.length (Lab3.self_chain st)) + 1
    /\ Lab3.timestamp block = now
    /\ Lab3.previous_hash block = Lab3.hash previous_block
    /\ Lab3.prefix4
         (sha256 (Lab3.proof_input (Lab3.proof block)
                    (Lab3.proof previous_block))) = "0000"
    /\ Lab3.self_chain st' = (Lab3.self_chain st ++ [block])%list
    /\ Lab3.self_transactions st' = []
    /\ Lab3.self_nodes st' = Lab3.self_nodes st.
Proof.
  intro H. destruct (lab3_mine_block_inv _ _ _ _ _ _ H)
    as [previous_block [nonce [Hlast [Hpow [Hb Hs]]]]].
  exists previous_block. split; [exact Hlast|].
  unfold Lab3.proof_of_work in Hpow.
  destruct (lab3_pow_loop_sound _ _ _ _ Hpow) as [_ Hg].
  rewrite Hs, Hb. cbn. repeat split. exact Hg.
Qed.





Lemma lab3_scan_unreachable (fetch : string -> Lab3.peer_reply)
    (node : string) (network : list string) :
  In node network -> fetch node = Lab3.ConnectionError ->
  forall acc, Lab3.scan fetch network acc = None.
Proof.
  intros Hin Hf. induction network as [|h network IH]; [destruct Hin|].
  intro acc. cbn [Lab3.scan].
  destruct Hin as [->|Hin].
  - rewrite Hf. reflexivity.
  - destruct (Lab3.scan_step acc (fetch h)); [apply IH; exact Hin|].
    reflexivity.
Qed.

Lemma lab3_scan_empty_chain (fetch : string -> Lab3.peer_reply)
    (node : string) (len : Z) (network : list string) :
  In node network ->
  fetch node = Lab3.Ok200 len [] ->
  (forall other l c,
     In other network -> fetch other = Lab3.Ok200 l c ->
     other = node \/ l < len) ->
  forall acc, snd acc < len -> Lab3.scan fetch network acc = None.
Proof.
  intros Hin Hf. induction network as [|h network IH]; [destruct Hin|].
  intros Hothers acc Hacc. cbn [Lab3.scan].
  assert (Hhere : h = node -> Lab3.scan_step acc (fetch h) = None).
  { intros ->. rewrite Hf. unfold Lab3.scan_step.
    replace (len >? snd acc) with true
      by (symmetry; rewrite Z.gtb_ltb; apply Z.ltb_lt; exact Hacc).
    reflexivity. }
  destruct (Lab3.scan_step acc (fetch h)) as [acc'|] eqn:Hstep;
    [|reflexivity].
  destruct Hin as [E|Hin]; [discriminate (Hhere E)|].
  apply IH; [exact Hin| |].
  - intros other l c Ho. apply Hothers. right. exact Ho.
  - unfold Lab3.scan_step in Hstep.
    destruct (fetch h) as [| |l c] eqn:Hfh; try discriminate.
    + injection Hstep as <-. exact Hacc.
    + destruct (l >? snd acc) eqn:Hgt.
      * destruct (Lab3.is_chain_valid c) as [[|]|]; try discriminate.
        -- injection Hstep as <-. cbn [snd].
           destruct (Hothers h l c (or_introl eq_refl) Hfh) as [E|Hl];
             [discriminate (Hhere E)|exact Hl].
        -- injection Hstep as <-. exact Hacc.
      * injection Hstep as <-. exact Hacc.
Qed.

(** X20. [replace_chain] of the earlier node raises instead of returning
    in two cases: when one of the registered peers cannot be reached, the
    failed connection not being caught; and when a peer reports, with an
    empty chain, a length above the local one and above what every other
    peer reports, the validator reading [chain[0]]. *)
Theorem lab3_replace_chain_raises (fetch : string -> Lab3.peer_reply)
    (node : string) (st : Lab3.Blockchain) :
  In node (Lab3.self_nodes st) ->
  (fetch node = Lab3.ConnectionError ->
   Lab3.replace_chain fetch st = None)
  /\ (forall len,
        fetch node = Lab3.Ok200 len [] ->
        Z.of_nat (List.length (Lab3.self_chain st)) < len ->
        (forall other l c,
           In other (Lab3.self_nodes st) ->
           fetch other = Lab3.Ok200 l c -> other = node \/ l < len) ->
        Lab3.replace_chain fetch st = None).
Proof.
  intro Hin. split.
  - intro Hf. unfold Lab3.replace_chain.
    rewrite (lab3_scan_unreachable fetch node _ Hin Hf). reflexivity.
  - intros len Hf Hlocal Hothers. unfold Lab3.replace_chain.
    rewrite (lab3_scan_empty_chain fetch node len _ Hin Hf Hothers);
      [reflexivity|exact Hlocal].
Qed.

Lemma lab3_replace_chain_raises_witness :
  Lab3.replace_chain (fun _ => Lab3.Ok200 5 [])
    (Lab3.mkBlockchain [Lab3.genesis] [] ["10.0.0.2:5002"])
  = None.
Proof.
  assert (Hin : In "10.0.0.2:5002"
                  (Lab3.self_nodes
                     (Lab3.mkBlockchain [Lab3.genesis] []
                        ["10.0.0.2:5002"]))) by (left; reflexivity).
  apply (proj2 (lab3_replace_chain_raises (fun _ => Lab3.Ok200 5 [])
                  "10.0.0.2:5002" _ Hin) 5).
  - reflexivity.
  - cbn. lia.
  - intros other l c [<-|[]] _. left. reflexivity.
Defined.

Lemma lab3_mine_block_outcome_witness :
  Lab3.mine_block 533 "2026-11-04 09:01:00.000002" "node5001"
    (Lab3.init "2026-11-04 09:00:00.000001")
  = Some (Lab3.second, Lab3.mkBlockchain [Lab3.genesis; Lab3.second] [] [])
  /\ Lab3.transactions Lab3.second
     = [mkTransaction "node5001" "Richard" 1].
Proof.
  assert (H : Lab3.mine_block 533 "2026-11-04 09:01:00.000002" "node5001"
                (Lab3.init "2026-11-04 09:00:00.000001")
              = Some (Lab3.second,
                      Lab3.mkBlockchain [Lab3.genesis; Lab3.second] [] []))
    by (vm_compute; reflexivity).
  split; [exact H|].
  destruct (lab3_mine_block_outcome _ _ _ _ _ _ H) as [p [_ [T _]]].
  exact T.
Defined.
